(** * Order lifecycle, payment verification and catalogue listing of the
      shop backend (backend/routes/orders.js, payments.js, products.js).

    The route handlers are embedded as functions over an explicit database
    state.  Every handler body is a [try { ... } catch] block whose early
    [return res.status(..)] exits keep all writes made before them, so the
    handlers live in a state monad with failure in which a failure does
    NOT roll the state back.

    Conventions of the embedding:
    - stock and quantity are integer counts, in [Z]; prices and amounts
      are JavaScript numbers as they are, binary64 floats, with the
      machine's multiplication and addition;
    - a request field that may be absent is an [option string]; [None] is
      JavaScript's [undefined];
    - document identifiers are strings that the database accepts as ids;
      [findById] on an unknown id yields [null], here [None];
    - the persistence layer itself never fails: [save] always stores;
    - a product carries the fields the modelled routes read or write
      (name, category, price, stock, featured); description, image and
      variant labels play no part in them. *)

From Stdlib Require Import ZArith String Ascii.
From Stdlib Require PrimFloat SpecFloat FloatOps.
From stdpp Require Import gmap strings list fin_maps.

Local Open Scope string_scope.
Local Open Scope list_scope.
Local Open Scope Z_scope.

(** ** Numbers *)

Abbreviation float := PrimFloat.float.

(** An integer count as the JavaScript number it is: the nearest binary64
    value (the count itself below 2^53). *)
Definition to_number (z : Z) : float :=
  FloatOps.SF2Prim
    (SpecFloat.binary_normalize FloatOps.prec FloatOps.emax z 0 false).

(** ** Data model *)

Module Product.
Record t : Type := mk
  { name : string; category : string; price : float; stock : Z;
    featured : bool }.

Definition with_stock (s : Z) (p : t) : t :=
  mk (name p) (category p) (price p) s (featured p).
End Product.

(** A line of the request body of POST /orders. *)
Module Item.
Record t : Type := mk
  { product : string; quantity : Z; size : string; color : string }.
End Item.

(** A line of a stored order: the request line plus the price snapshot. *)
Module OrderItem.
Record t : Type := mk
  { product : string; quantity : Z; price : float;
    size : string; color : string }.
End OrderItem.

Inductive Status : Type :=
  Pending | Processing | Shipped | Delivered | Cancelled.

Global Instance Status_eq_dec : EqDecision Status.
Proof. solve_decision. Defined.

Module PaymentInfo.
Record t : Type := mk
  { method : string; id : option string; status : option string }.
End PaymentInfo.

Module Order.
Record t : Type := mk
  { user : string;
    items : list OrderItem.t;
    totalAmount : float;
    shippingAddress : string;
    paymentInfo : PaymentInfo.t;
    status : Status;
    cancellationReason : option string }.

Definition with_status (s : Status) (o : t) : t :=
  mk (user o) (items o) (totalAmount o) (shippingAddress o)
     (paymentInfo o) s (cancellationReason o).

Definition with_cancellationReason (r : string) (o : t) : t :=
  mk (user o) (items o) (totalAmount o) (shippingAddress o)
     (paymentInfo o) (status o) (Some r).

Definition with_paymentInfo (pi : PaymentInfo.t) (o : t) : t :=
  mk (user o) (items o) (totalAmount o) (shippingAddress o)
     pi (status o) (cancellationReason o).
End Order.

(** Modelled from the spec: the Order schema (models/Order.js) is not among
    the sources; the spec gives the status a new order is stored with. *)
Definition default_status : Status := Pending.

(** The authenticated caller, [req.user]. *)
Module Requester.
Record t : Type := mk { _id : string; role : string }.
End Requester.

(** The two collections the routes touch. *)
Record Db : Type := mkDb
  { products : gmap string Product.t;
    orders : gmap string Order.t }.

(** ** Responses and the handler monad *)

(** The error taxonomy; each handler exit maps to one of them. *)
Inductive Failure : Type :=
  | ValidationError | NotFound | Forbidden | InsufficientStock
  | InvalidState | VerificationFailed | UnexpectedError.

(** The HTTP status every exit of the routes sends for a failure. *)
Definition http_status (f : Failure) : Z :=
  match f with
  | ValidationError | InsufficientStock | InvalidState
  | VerificationFailed => 400
  | Forbidden => 403
  | NotFound => 404
  | UnexpectedError => 500
  end.

Definition M (A : Type) : Type := Db → (Failure + A) * Db.

Definition ret {A} (a : A) : M A := λ db, (inr a, db).
Definition fail {A} (f : Failure) : M A := λ db, (inl f, db).
Definition bind {A B} (m : M A) (k : A → M B) : M B :=
  λ db, match m db with
        | (inl f, db') => (inl f, db')
        | (inr a, db') => k a db'
        end.

Notation "'let*' x ':=' m 'in' k" := (bind m (λ x, k))
  (at level 10, x pattern, m at level 100, k at level 200).

(** [Product.findById], [product.save()], [Order.findById], [order.save()]. *)
Definition findProduct (id : string) : M (option Product.t) :=
  λ db, (inr (products db !! id), db).
Definition saveProduct (id : string) (p : Product.t) : M unit :=
  λ db, (inr tt, mkDb (<[id := p]> (products db)) (orders db)).
Definition findOrder (id : string) : M (option Order.t) :=
  λ db, (inr (orders db !! id), db).
Definition saveOrder (id : string) (o : Order.t) : M unit :=
  λ db, (inr tt, mkDb (products db) (<[id := o]> (orders db))).
(** [new Order({..})] draws an [_id] no stored order has. *)
Definition newOrderId : M string :=
  λ db, (inr (fresh (dom (orders db))), db).

(** ** JavaScript string helpers *)

(** [!v] for a possibly absent string: [undefined] and [""] are falsy. *)
Definition truthy (v : option string) : bool :=
  match v with
  | None => false
  | Some s => negb (String.eqb s "")
  end.

Definition lower_ascii (c : ascii) : ascii :=
  let n := N_of_ascii c in
  if ((65 <=? n) && (n <=? 90))%N then ascii_of_N (n + 32) else c.

Fixpoint toLowerCase (s : string) : string :=
  match s with
  | EmptyString => EmptyString
  | String c r => String (lower_ascii c) (toLowerCase r)
  end.

(** ** POST /orders *)

Definition snapshot (item : Item.t) (product : Product.t) : OrderItem.t :=
  OrderItem.mk (Item.product item) (Item.quantity item)
    (Product.price product) (Item.size item) (Item.color item).

(** The [for (const item of items)] loop with its two accumulators. *)
Fixpoint process_items (items : list Item.t) (totalAmount : float)
    (orderItems : list OrderItem.t) : M (float * list OrderItem.t) :=
  match items with
  | [] => ret (totalAmount, orderItems)
  | item :: rest =>
      let* product := findProduct (Item.product item) in
      match product with
      | None => fail NotFound
      | Some product =>
          if Product.stock product <? Item.quantity item
          then fail InsufficientStock
          else
            let itemPrice :=
              PrimFloat.mul (Product.price product)
                (to_number (Item.quantity item)) in
            let totalAmount := PrimFloat.add totalAmount itemPrice in
            let orderItems := orderItems ++ [snapshot item product] in
            let* _ :=
              saveProduct (Item.product item)
                (Product.with_stock
                   (Product.stock product - Item.quantity item) product) in
            process_items rest totalAmount orderItems
      end
  end.

Definition COD_FEE : float := to_number 50.

(** [paymentMethod.toLowerCase()] throws a TypeError on [undefined]; the
    handler's [catch] turns it into the 500 reply, after the loop ran. *)
Definition create_order (requester : Requester.t) (items : list Item.t)
    (shippingAddress : string) (paymentMethod : option string)
    : M (string * Order.t) :=
  match items with
  | [] => fail ValidationError
  | _ =>
      let* (totalAmount, orderItems) :=
        process_items items (to_number 0) [] in
      match paymentMethod with
      | None => fail UnexpectedError
      | Some method =>
          let totalAmount :=
            if String.eqb (toLowerCase method) "cod"
            then PrimFloat.add totalAmount COD_FEE else totalAmount in
          let order :=
            Order.mk (Requester._id requester) orderItems totalAmount
              shippingAddress
              (PaymentInfo.mk
                 (if truthy paymentMethod then method else "Razorpay")
                 None None)
              default_status None in
          let* id := newOrderId in
          let* _ := saveOrder id order in
          ret (id, order)
      end
  end.

(** ** PUT /orders/:id/status  (reached only through [isAdmin]) *)

Definition update_status (id : string) (status : Status) : M Order.t :=
  let* order := findOrder id in
  match order with
  | None => fail NotFound
  | Some order =>
      let order := Order.with_status status order in
      let* _ := saveOrder id order in
      ret order
  end.

(** ** PUT /orders/:id/cancel and GET /orders/:id *)

(** [req.user.role !== 'admin' && order.user.toString() !==
    req.user._id.toString()], the condition of both 403 exits. *)
Definition not_authorized (requester : Requester.t) (owner : string) : bool :=
  negb (String.eqb (Requester.role requester) "admin")
  && negb (String.eqb owner (Requester._id requester)).

(** The [for (const item of order.items)] loop of the cancellation. *)
Fixpoint restore_stock (items : list OrderItem.t) : M unit :=
  match items with
  | [] => ret tt
  | item :: rest =>
      let* product := findProduct (OrderItem.product item) in
      let* _ :=
        match product with
        | Some product =>
            saveProduct (OrderItem.product item)
              (Product.with_stock
                 (Product.stock product + OrderItem.quantity item) product)
        | None => ret tt
        end in
      restore_stock rest
  end.

Definition cancel_order (requester : Requester.t) (id : string)
    (reason : option string) : M Order.t :=
  if negb (truthy reason) then fail ValidationError
  else
    let* order := findOrder id in
    match order with
    | None => fail NotFound
    | Some order =>
        if not_authorized requester (Order.user order) then fail Forbidden
        else if bool_decide (Order.status order ∈ [Delivered; Cancelled])
        then fail InvalidState
        else
          let* _ := restore_stock (Order.items order) in
          let order :=
            Order.with_cancellationReason (default "" reason)
              (Order.with_status Cancelled order) in
          let* _ := saveOrder id order in
          ret order
    end.

Definition get_order (requester : Requester.t) (id : string) : M Order.t :=
  let* order := findOrder id in
  match order with
  | None => fail NotFound
  | Some order =>
      if not_authorized requester (Order.user order) then fail Forbidden
      else ret order
  end.

(** ** POST /payments/verify *)

Module Confirmation.
Record t : Type := mk
  { success : bool; orderId : string; paymentId : string }.
End Confirmation.

Section Payments.
(** [crypto.createHmac('sha256', key).update(data).digest('hex')]. *)
Variable hmac_sha256_hex : string → string → string.
(** [process.env.RAZORPAY_KEY_SECRET]. *)
Variable RAZORPAY_KEY_SECRET : option string.

Definition key_secret : string :=
  if truthy RAZORPAY_KEY_SECRET then default "" RAZORPAY_KEY_SECRET
  else "your_test_secret_key".

Definition expectedSignature (razorpay_order_id razorpay_payment_id : string)
    : string :=
  hmac_sha256_hex key_secret
    (String.append razorpay_order_id
       (String.append "|" razorpay_payment_id)).

Definition verify_payment
    (razorpay_order_id razorpay_payment_id razorpay_signature
       order_id : option string) : M Confirmation.t :=
  if negb (truthy razorpay_order_id) || negb (truthy razorpay_payment_id)
     || negb (truthy razorpay_signature)
  then fail ValidationError
  else
    let gw_order := default "" razorpay_order_id in
    let gw_payment := default "" razorpay_payment_id in
    let isAuthentic :=
      String.eqb (expectedSignature gw_order gw_payment)
        (default "" razorpay_signature) in
    if negb isAuthentic then fail VerificationFailed
    else
      let* _ :=
        if truthy order_id then
          let* order := findOrder (default "" order_id) in
          match order with
          | Some order =>
              saveOrder (default "" order_id)
                (Order.with_status Processing
                   (Order.with_paymentInfo
                      (PaymentInfo.mk "Razorpay" (Some gw_payment)
                         (Some "completed"))
                      order))
          | None => ret tt
          end
        else ret tt in
      ret (Confirmation.mk true gw_order gw_payment).
End Payments.

(** ** GET /products *)

(** The database's [$regex] operator with option [i], for ASCII patterns
    made of literal characters and the wildcard [.], on ASCII subjects.
    Outside that fragment (any other metacharacter, or a character beyond
    ASCII in the pattern or in the subject, where the engine's case folding
    is no longer that of A-Z) the model gives no answer ([None]).  The
    search is unanchored. *)
Inductive atom : Type := Lit (c : ascii) | AnyChar.

Definition is_ascii_char (c : ascii) : bool := (N_of_ascii c <? 128)%N.

Definition is_ascii (s : string) : bool :=
  forallb is_ascii_char (list_ascii_of_string s).

Definition metachars : list ascii :=
  list_ascii_of_string "\^$.|?*+()[]{}".

Definition newline : ascii := ascii_of_N 10.

Fixpoint regex_compile (pattern : string) : option (list atom) :=
  match pattern with
  | EmptyString => Some []
  | String c r =>
      if negb (is_ascii_char c) then None
      else if bool_decide (c = "."%char)
      then cons AnyChar <$> regex_compile r
      else if bool_decide (c ∈ metachars) then None
      else cons (Lit c) <$> regex_compile r
  end.

(** On ASCII characters, the only ones it is applied to, folding case is
    folding A-Z. *)
Definition atom_matches (a : atom) (c : ascii) : bool :=
  match a with
  | Lit x => bool_decide (lower_ascii x = lower_ascii c)
  | AnyChar => negb (bool_decide (c = newline))
  end.

Fixpoint match_here (re : list atom) (s : string) : bool :=
  match re, s with
  | [], _ => true
  | _ :: _, EmptyString => false
  | a :: re', String c s' => atom_matches a c && match_here re' s'
  end.

Fixpoint match_anywhere (re : list atom) (s : string) : bool :=
  match_here re s
  || match s with
     | EmptyString => false
     | String _ s' => match_anywhere re s'
     end.

Definition regex_test (pattern subject : string) : option bool :=
  if is_ascii subject
  then (λ re, match_anywhere re subject) <$> regex_compile pattern
  else None.

(** The query object built from [req.query], applied to one product. *)
Definition query_matches (category featured search : option string)
    (p : Product.t) : option bool :=
  name_ok ← (if truthy search
             then regex_test (default "" search) (Product.name p)
             else Some true);
  Some ((if truthy category
         then String.eqb (Product.category p) (default "" category)
         else true)
        && (if bool_decide (featured = Some "true")
            then Product.featured p else true)
        && name_ok).

(** [Product.find(query)]: [None] only when the search term, or the name
    of a stored product it is tried on, leaves the modelled fragment. *)
Definition list_products (category featured search : option string)
    (db : Db) : option (list (string * Product.t)) :=
  _ ← (if truthy search then regex_compile (default "" search) else Some []);
  if forallb
       (λ kp, bool_decide
                (is_Some (query_matches category featured search kp.2)))
       (map_to_list (products db))
  then Some (filter
               (λ kp, query_matches category featured search kp.2 = Some true)
               (map_to_list (products db)))
  else None.

(** ** Vocabulary of the statements *)

(** A line reduced to what touches stock: product id and quantity. *)
Definition request_lines (items : list Item.t) : list (string * Z) :=
  (λ i, (Item.product i, Item.quantity i)) <$> items.
Definition order_lines (items : list OrderItem.t) : list (string * Z) :=
  (λ i, (OrderItem.product i, OrderItem.quantity i)) <$> items.

(** Total quantity of product [p] over a list of lines. *)
Fixpoint demand (p : string) (ls : list (string * Z)) : Z :=
  match ls with
  | [] => 0
  | (q, n) :: r => (if decide (q = p) then n else 0) + demand p r
  end.

(** Every stored product keeps all its fields but [stock], which moves by
    [δ id]; no product appears or disappears. *)
Definition adjust_stock (δ : string → Z) (ps : gmap string Product.t)
    : gmap string Product.t :=
  map_imap
    (λ id p, Some (Product.with_stock (Product.stock p + δ id) p)) ps.

Definition unit_price (ps : gmap string Product.t) (id : string) : float :=
  default (to_number 0) (Product.price <$> ps !! id).

(** Unit price × quantity of a line, as the machine multiplies. *)
Definition line_price (ps : gmap string Product.t) (i : Item.t) : float :=
  PrimFloat.mul (unit_price ps (Item.product i)) (to_number (Item.quantity i)).

(** Σ (unit price × quantity) over the request, as the machine adds: line
    after line, in request order, onto [start]. *)
Definition subtotal_from (ps : gmap string Product.t) (start : float)
    (items : list Item.t) : float :=
  fold_left (λ acc i, PrimFloat.add acc (line_price ps i)) items start.

Definition subtotal (ps : gmap string Product.t) (items : list Item.t)
    : float :=
  subtotal_from ps (to_number 0) items.

(** The stored lines: each request line with the product's unit price. *)
Definition snapshots (ps : gmap string Product.t) (items : list Item.t)
    : list OrderItem.t :=
  (λ i, OrderItem.mk (Item.product i) (Item.quantity i)
          (unit_price ps (Item.product i)) (Item.size i) (Item.color i))
  <$> items.




(** An order after a verified payment: paymentInfo is
    {id: gateway payment id, status: completed, method: gateway name} and
    the status is processing. *)
Definition paid (gw_payment : string) (order : Order.t) : Order.t :=
  Order.mk (Order.user order) (Order.items order) (Order.totalAmount order)
    (Order.shippingAddress order)
    (PaymentInfo.mk "Razorpay" (Some gw_payment) (Some "completed"))
    Processing (Order.cancellationReason order).

Definition stock_nonneg (db : Db) : Prop :=
  map_Forall (λ _ p, 0 ≤ Product.stock p) (products db).

(** The request can be served: every line names a stored product whose
    stock covers all that the request asks of that product. *)
Definition covered (ps : gmap string Product.t) (items : list Item.t) : Prop :=
  ∀ i, i ∈ items →
    ∃ p, ps !! Item.product i = Some p
         ∧ demand (Item.product i) (request_lines items) ≤ Product.stock p.


(** ** Sequences of requests *)

Inductive Op : Type :=
  | CreateOrder (requester : Requester.t) (items : list Item.t)
      (shippingAddress : string) (paymentMethod : option string)
  | CancelOrder (requester : Requester.t) (id : string)
      (reason : option string)
  | UpdateStatus (id : string) (status : Status)
  | VerifyPayment (razorpay_order_id razorpay_payment_id razorpay_signature
                     order_id : option string).

Section Traces.
Variable hmac_sha256_hex : string → string → string.
Variable RAZORPAY_KEY_SECRET : option string.

(** The database after one request, requests being served one at a
    time. *)
Definition step (op : Op) (db : Db) : Db :=
  match op with
  | CreateOrder requester items shippingAddress paymentMethod =>
      (create_order requester items shippingAddress paymentMethod db).2
  | CancelOrder requester id reason => (cancel_order requester id reason db).2
  | UpdateStatus id status => (update_status id status db).2
  | VerifyPayment a b c d =>
      (verify_payment hmac_sha256_hex RAZORPAY_KEY_SECRET a b c d db).2
  end.

Definition run (ops : list Op) (db : Db) : Db :=
  foldl (λ db op, step op db) db ops.

(** The requests a sequence is restricted to: a status update or payment
    verification that does not move an order into or out of cancelled,
    and a creation that, if refused, is refused before it has written a
    product. *)
Definition guard (op : Op) (db : Db) : Prop :=
  match op with
  | CreateOrder requester items shippingAddress paymentMethod =>
      ∀ f db',
        create_order requester items shippingAddress paymentMethod db
        = (inl f, db') →
        products db' = products db
  | CancelOrder _ _ _ => True
  | UpdateStatus id status =>
      ∀ order, orders db !! id = Some order →
               (Order.status order = Cancelled ↔ status = Cancelled)
  | VerifyPayment _ _ _ order_id =>
      ∀ order, orders db !! default "" order_id = Some order →
               Order.status order ≠ Cancelled
  end.

Fixpoint guarded (ops : list Op) (db : Db) : Prop :=
  match ops with
  | [] => True
  | op :: rest => guard op db ∧ guarded rest (step op db)
  end.
End Traces.

(** What an order holds of product [p]: the quantity of its lines, unless
    the order is cancelled. *)
Definition reserved (p : string) (o : Order.t) : Z :=
  if decide (Order.status o = Cancelled) then 0
  else demand p (order_lines (Order.items o)).

Definition sumZ (l : list Z) : Z := foldr Z.add 0 l.

Definition held (p : string) (os : gmap string Order.t) : Z :=
  sumZ ((λ kv, reserved p kv.2) <$> map_to_list os).

Definition stock_of (p : string) (db : Db) : Z :=
  default 0 (Product.stock <$> products db !! p).

(** Stock on the shelf plus stock held by the orders not cancelled. *)
Definition balance (p : string) (db : Db) : Z :=
  stock_of p db + held p (orders db).

(** ** Sample data for the closed examples *)

Module Sample.
Definition shirt : Product.t :=
  Product.mk "Shirt" "men" (to_number 100) 5 false.
Definition scarf : Product.t :=
  Product.mk "Silk Scarf" "women" (to_number 40) 1 true.

Definition db : Db := mkDb (<["p1" := shirt]> (<["p2" := scarf]> ∅)) ∅.

Definition alice : Requester.t := Requester.mk "u1" "user".
Definition bob : Requester.t := Requester.mk "u2" "user".
Definition root : Requester.t := Requester.mk "u0" "admin".

Definition line (p : string) (q : Z) : Item.t := Item.mk p q "M" "red".

(** A shop with one order of alice's, two shirts, in a given status. *)
Definition order1 (s : Status) : Order.t :=
  Order.mk "u1" [OrderItem.mk "p1" 2 (to_number 100) "M" "red"]
    (to_number 200) "addr"
    (PaymentInfo.mk "Razorpay" None None) s None.
Definition shop (s : Status) : Db :=
  mkDb (products db) (<["o1" := order1 s]> ∅).

Definition buy_two_shirts : Op :=
  CreateOrder alice [line "p1" 2] "addr" (Some "cod").

(** A stand-in for the keyed hash in the closed examples. *)
Definition toy_hmac (key data : string) : string :=
  String.append key (String.append "/" data).
End Sample.

(** ** The read routes: GET /orders/my-orders, GET /products/:id *)

(** [Order.find({ user: u })].  The reply's [populate] of the lines'
    product names reads the products and writes nothing; the listing is
    kept as the stored orders. *)
Definition orders_of (u : string) (db : Db) : list (string * Order.t) :=
  filter (λ kv, Order.user kv.2 = u) (map_to_list (orders db)).

Definition my_orders (requester : Requester.t) : M (list (string * Order.t)) :=
  λ db, (inr (orders_of (Requester._id requester) db), db).

Definition get_product (id : string) : M Product.t :=
  let* product := findProduct id in
  match product with
  | None => fail NotFound
  | Some product => ret product
  end.

(** ** Further vocabulary *)

(** What no order route writes: of an order, everything but status,
    payment info and cancellation reason; of a product, everything but
    stock. *)
Definition order_core (o : Order.t)
    : string * list OrderItem.t * float * string :=
  (Order.user o, Order.items o, Order.totalAmount o, Order.shippingAddress o).

Definition product_core (p : Product.t) : string * string * float * bool :=
  (Product.name p, Product.category p, Product.price p, Product.featured p).

(** Requests and stored orders without negative quantities. *)
Definition op_nonneg (op : Op) : Prop :=
  match op with
  | CreateOrder _ items _ _ => Forall (λ i, 0 ≤ Item.quantity i) items
  | _ => True
  end.

Definition orders_nonneg (db : Db) : Prop :=
  map_Forall
    (λ _ o, Forall (λ l, 0 ≤ l.2) (order_lines (Order.items o)))
    (orders db).
(** ** Basic facts *)

(** Side conditions on closed data: computed. *)
Ltac closed_side :=
  first [reflexivity | discriminate | simpl; discriminate | by vm_compute].

Lemma lookup_adjust_stock δ (ps : gmap string Product.t) id :
  adjust_stock δ ps !! id
  = (λ p, Product.with_stock (Product.stock p + δ id) p) <$> ps !! id.
Proof.
  unfold adjust_stock. rewrite map_lookup_imap.
  by destruct (ps !! id).
Qed.

Lemma with_stock_same (p : Product.t) :
  Product.with_stock (Product.stock p) p = p.
Proof. by destruct p. Qed.

Lemma adjust_stock_zero δ (ps : gmap string Product.t) :
  (∀ id, is_Some (ps !! id) → δ id = 0) → adjust_stock δ ps = ps.
Proof.
  intros Hz. apply map_eq. intros id. rewrite lookup_adjust_stock.
  destruct (ps !! id) as [p|] eqn:E; [|done]. simpl.
  rewrite Hz by eauto. by rewrite Z.add_0_r, with_stock_same.
Qed.

(** One more write on top of an adjustment is the adjustment by the
    shifted offsets. *)
Lemma adjust_stock_insert δ n id (p : Product.t) (ps : gmap string Product.t) :
  ps !! id = Some p →
  adjust_stock δ (<[id := Product.with_stock (Product.stock p + n) p]> ps)
  = adjust_stock (λ k, (if decide (id = k) then n else 0) + δ k) ps.
Proof.
  intros Hp. apply map_eq. intros k. rewrite !lookup_adjust_stock.
  destruct (decide (id = k)) as [->|Hne].
  - rewrite lookup_insert_eq, Hp.
    unfold Product.with_stock. simpl. do 2 f_equal. lia.
  - rewrite lookup_insert_ne by done.
    destruct (ps !! k); simpl; [|done]. by rewrite Z.add_0_l.
Qed.

Lemma adjust_stock_ext δ1 δ2 (ps : gmap string Product.t) :
  (∀ id, δ1 id = δ2 id) → adjust_stock δ1 ps = adjust_stock δ2 ps.
Proof.
  intros He. apply map_eq. intros id. rewrite !lookup_adjust_stock.
  by rewrite He.
Qed.

Lemma unit_price_insert_stock (ps : gmap string Product.t) id p s k :
  ps !! id = Some p →
  unit_price (<[id := Product.with_stock s p]> ps) k = unit_price ps k.
Proof.
  intros Hp. unfold unit_price. destruct (decide (id = k)) as [->|Hne].
  - by rewrite lookup_insert_eq, Hp.
  - by rewrite lookup_insert_ne.
Qed.

Lemma line_price_insert_stock (ps : gmap string Product.t) id p s i :
  ps !! id = Some p →
  line_price (<[id := Product.with_stock s p]> ps) i = line_price ps i.
Proof.
  intros Hp. unfold line_price.
  by rewrite (unit_price_insert_stock _ _ _ _ _ Hp).
Qed.

Lemma subtotal_insert_stock (ps : gmap string Product.t) id p s items :
  ps !! id = Some p →
  ∀ start,
    subtotal_from (<[id := Product.with_stock s p]> ps) start items
    = subtotal_from ps start items.
Proof.
  intros Hp. induction items as [|i r IH]; intros start; simpl; [done|].
  by rewrite IH, (line_price_insert_stock _ _ _ _ _ Hp).
Qed.

Lemma snapshots_insert_stock (ps : gmap string Product.t) id p s items :
  ps !! id = Some p →
  snapshots (<[id := Product.with_stock s p]> ps) items = snapshots ps items.
Proof.
  intros Hp. unfold snapshots. apply list_fmap_ext. intros _ i _.
  by rewrite (unit_price_insert_stock _ _ _ _ _ Hp).
Qed.

Lemma demand_nonneg p ls :
  Forall (λ l, 0 ≤ l.2) ls → 0 ≤ demand p ls.
Proof.
  induction 1 as [|[q n] r Hq _ IH]; simpl in *; [done|].
  case_decide; lia.
Qed.

Lemma order_lines_snapshots ps items :
  order_lines (snapshots ps items) = request_lines items.
Proof.
  unfold order_lines, snapshots, request_lines.
  rewrite <- list_fmap_compose. by apply list_fmap_ext.
Qed.

Lemma demand_absent p ls :
  p ∉ ls.*1 → demand p ls = 0.
Proof.
  induction ls as [|[q n] r IH]; simpl; [done|].
  intros Hn. rewrite not_elem_of_cons in Hn. destruct Hn as [Hne Hr].
  rewrite decide_False by congruence. rewrite IH by done. lia.
Qed.

(** ** The creation loop *)

(** What a completed run of the loop has done. *)
Lemma process_items_inr items : ∀ total acc db r db',
  process_items items total acc db = (inr r, db') →
  r = (subtotal_from (products db) total items,
       acc ++ snapshots (products db) items)
  ∧ products db'
    = adjust_stock (λ p, - demand p (request_lines items)) (products db)
  ∧ orders db' = orders db.
Proof.
  induction items as [|i rest IH]; intros total acc db r db' Hrun.
  - simpl in Hrun. injection Hrun as <- <-. simpl.
    rewrite app_nil_r. split_and!; [done| |done].
    symmetry. apply adjust_stock_zero. done.
  - simpl in Hrun. unfold bind, findProduct in Hrun. simpl in Hrun.
    destruct (products db !! Item.product i) as [p|] eqn:Hp; [|done].
    destruct (Product.stock p <? Item.quantity i) eqn:Hlt; [done|].
    simpl in Hrun. apply IH in Hrun as (-> & Hps & Hos). simpl in *.
    rewrite Hos, Hps. split_and!; [| |done].
    + rewrite (subtotal_insert_stock _ _ _ _ _ Hp).
      rewrite (snapshots_insert_stock _ _ _ _ _ Hp).
      assert (Hprice :
        unit_price (products db) (Item.product i) = Product.price p)
        by (unfold unit_price; by rewrite Hp).
      rewrite <- app_assoc. unfold snapshot, line_price. simpl.
      by rewrite Hprice.
    + replace (Product.stock p - Item.quantity i)
        with (Product.stock p + - Item.quantity i) by lia.
      rewrite (adjust_stock_insert _ _ _ _ _ Hp).
      apply adjust_stock_ext. intros k. case_decide; lia.
Qed.

Lemma demand_request_cons p i rest :
  demand p (request_lines (i :: rest))
  = (if decide (Item.product i = p) then Item.quantity i else 0)
    + demand p (request_lines rest).
Proof. done. Qed.

Lemma demand_order_cons p i rest :
  demand p (order_lines (i :: rest))
  = (if decide (OrderItem.product i = p) then OrderItem.quantity i else 0)
    + demand p (order_lines rest).
Proof. done. Qed.

Lemma demand_request_nonneg p items :
  Forall (λ i, 0 ≤ Item.quantity i) items →
  0 ≤ demand p (request_lines items).
Proof.
  intros H. apply demand_nonneg. unfold request_lines.
  rewrite Forall_fmap. eapply Forall_impl; [exact H|]. done.
Qed.

Lemma process_items_covered items : ∀ total acc db,
  Forall (λ i, 0 ≤ Item.quantity i) items →
  covered (products db) items →
  ∃ r db', process_items items total acc db = (inr r, db').
Proof.
  induction items as [|i rest IH]; intros total acc db Hq Hc.
  - simpl. unfold ret. eauto.
  - apply Forall_cons in Hq as [Hqi Hq].
    destruct (Hc i) as (p & Hp & Hd); [by left|].
    rewrite demand_request_cons, decide_True in Hd by done.
    pose proof (demand_request_nonneg (Item.product i) rest Hq) as Hnn.
    simpl. unfold bind, findProduct. simpl. rewrite Hp.
    destruct (Z.ltb_spec (Product.stock p) (Item.quantity i)) as [?|_];
      [lia|].
    simpl. apply IH; [done|]. simpl.
    intros j Hj. destruct (Hc j) as (pj & Hpj & Hdj); [by right|].
    rewrite demand_request_cons in Hdj.
    destruct (decide (Item.product i = Item.product j)) as [Heq|Hne].
    + rewrite <- Heq in *. rewrite lookup_insert_eq.
      eexists; split; [done|]. simpl. simplify_eq. lia.
    + rewrite lookup_insert_ne by done. eexists; split; [done|]. lia.
Qed.

(** The loop over a concatenation runs the first part, then the second on
    the state and accumulators the first part left. *)
Lemma process_items_app pre : ∀ rest total acc db,
  process_items (pre ++ rest) total acc db
  = match process_items pre total acc db with
    | (inl f, db') => (inl f, db')
    | (inr (t, a), db') => process_items rest t a db'
    end.
Proof.
  induction pre as [|i pre IH]; intros rest total acc db; [done|].
  simpl. unfold bind, findProduct. simpl.
  destruct (products db !! Item.product i) as [p|]; [|done].
  destruct (Product.stock p <? Item.quantity i); [done|].
  simpl. apply IH.
Qed.

(** The loop never writes a negative stock, whatever its outcome. *)
Lemma process_items_nonneg items : ∀ total acc db,
  stock_nonneg db → stock_nonneg (process_items items total acc db).2.
Proof.
  induction items as [|i rest IH]; intros total acc db Hnn; [done|].
  simpl. unfold bind, findProduct. simpl.
  destruct (products db !! Item.product i) as [p|] eqn:Hp; [|done].
  destruct (Z.ltb_spec (Product.stock p) (Item.quantity i)) as [?|Hge];
    [done|].
  simpl. apply IH. intros id p' Hl. simpl in Hl.
  destruct (decide (Item.product i = id)) as [<-|Hne].
  - rewrite lookup_insert_eq in Hl. injection Hl as <-. simpl.
    specialize (Hnn _ _ Hp). lia.
  - rewrite lookup_insert_ne in Hl by done. eauto.
Qed.

(** The loop writes products only. *)
Lemma process_items_orders items : ∀ total acc db,
  orders (process_items items total acc db).2 = orders db.
Proof.
  induction items as [|i rest IH]; intros total acc db; [done|].
  simpl. unfold bind, findProduct. simpl.
  destruct (products db !! Item.product i) as [p|]; [|done].
  destruct (Product.stock p <? Item.quantity i); [done|].
  simpl. by rewrite IH.
Qed.

(** The reply of POST /orders once the loop has completed. *)
Lemma create_order_after_loop requester items shippingAddress paymentMethod
    db total orderItems db' :
  items ≠ [] →
  process_items items (to_number 0) [] db = (inr (total, orderItems), db') →
  create_order requester items shippingAddress paymentMethod db
  = match paymentMethod with
    | None => (inl UnexpectedError, db')
    | Some method =>
        let order :=
          Order.mk (Requester._id requester) orderItems
            (if String.eqb (toLowerCase method) "cod"
             then PrimFloat.add total COD_FEE else total)
            shippingAddress
            (PaymentInfo.mk
               (if truthy paymentMethod then method else "Razorpay")
               None None)
            default_status None in
        let id := fresh (dom (orders db')) in
        (inr (id, order), mkDb (products db') (<[id := order]> (orders db')))
    end.
Proof.
  intros Hne Hrun. unfold create_order.
  destruct items as [|i rest]; [done|].
  unfold bind at 1. rewrite Hrun. by destruct paymentMethod.
Qed.

Lemma create_order_loop_failed requester items shippingAddress paymentMethod
    db f db' :
  process_items items (to_number 0) [] db = (inl f, db') →
  create_order requester items shippingAddress paymentMethod db
  = (inl f, db').
Proof.
  intros Hrun. unfold create_order.
  destruct items as [|i rest]; [done|].
  unfold bind at 1. by rewrite Hrun.
Qed.

(** ** POST /orders: statements *)

Lemma create_order_empty requester shippingAddress paymentMethod db :
  create_order requester [] shippingAddress paymentMethod db
  = (inl ValidationError, db).
Proof. done. Qed.

(** C1, as stated, fails: in a request that names the same product twice,
    each line on its own is within the stored stock (3 ≤ 5), yet the second
    line is checked against what the first one left (2) and the creation is
    refused with InsufficientStock. *)
Lemma create_order_repeated_product_refused :
  Forall (λ i, ∃ p, products Sample.db !! Item.product i = Some p
                    ∧ Item.quantity i ≤ Product.stock p)
    [Sample.line "p1" 3; Sample.line "p1" 3]
  ∧ (create_order Sample.alice [Sample.line "p1" 3; Sample.line "p1" 3]
       "addr" (Some "cod") Sample.db).1 = inl InsufficientStock.
Proof.
  split; [|by vm_compute].
  repeat constructor; exists Sample.shirt; by vm_compute.
Qed.

(** C1 (amended): for a non-empty request with non-negative quantities in
    which every line names a stored product whose stock covers the total
    quantity the request asks of that product, and with a payment method
    given, creation succeeds; it lowers each product's stock by exactly the
    total quantity ordered of it and changes nothing else of the products;
    the stored order is new, pending, carries every line with the product's
    unit price, and its totalAmount is the sum of unit price × quantity
    over the lines as the code computes it, in binary64 arithmetic, line
    after line from 0 in request order, with 50 added at the end exactly
    when the method lower-cased is "cod". *)
Theorem create_order_covered requester items shippingAddress method db :
  items ≠ [] →
  Forall (λ i, 0 ≤ Item.quantity i) items →
  covered (products db) items →
  let order :=
    Order.mk (Requester._id requester) (snapshots (products db) items)
      (if String.eqb (toLowerCase method) "cod"
       then PrimFloat.add (subtotal (products db) items) (to_number 50)
       else subtotal (products db) items)
      shippingAddress
      (PaymentInfo.mk (if String.eqb method "" then "Razorpay" else method)
         None None)
      Pending None in
  let id := fresh (dom (orders db)) in
  orders db !! id = None
  ∧ create_order requester items shippingAddress (Some method) db
    = (inr (id, order),
       mkDb (adjust_stock (λ p, - demand p (request_lines items))
               (products db))
            (<[id := order]> (orders db))).
Proof.
  intros Hne Hq Hc order id. split.
  { apply not_elem_of_dom. apply is_fresh. }
  destruct (process_items_covered items (to_number 0) [] db Hq Hc)
    as ([t a] & db' & Hrun).
  rewrite (create_order_after_loop _ _ _ _ _ _ _ _ Hne Hrun).
  apply process_items_inr in Hrun as (Hr & Hps & Hos).
  injection Hr as -> ->. simpl. rewrite Hps, Hos. subst order id.
  unfold default_status, COD_FEE, subtotal.
  by destruct (String.eqb method "").
Qed.

Lemma create_order_covered_witness :
  (create_order Sample.alice [Sample.line "p1" 2; Sample.line "p1" 3]
     "addr" (Some "Cod") Sample.db).1
  = inr ("0",
         Order.mk "u1"
           [OrderItem.mk "p1" 2 (to_number 100) "M" "red";
            OrderItem.mk "p1" 3 (to_number 100) "M" "red"]
           (to_number 550) "addr" (PaymentInfo.mk "Cod" None None) Pending
           None).
Proof.
  assert (Hne : [Sample.line "p1" 2; Sample.line "p1" 3] ≠ [])
    by discriminate.
  assert (Hq : Forall (λ i, 0 ≤ Item.quantity i)
                 [Sample.line "p1" 2; Sample.line "p1" 3])
    by (repeat constructor; simpl; lia).
  assert (Hc : covered (products Sample.db)
                 [Sample.line "p1" 2; Sample.line "p1" 3]).
  { intros i Hi. exists Sample.shirt.
    apply elem_of_cons in Hi as [->|Hi];
      [|apply elem_of_cons in Hi as [->|Hi]; [|by apply elem_of_nil in Hi]];
      by vm_compute. }
  destruct (create_order_covered Sample.alice _ "addr" "Cod" Sample.db
              Hne Hq Hc) as [_ ->].
  by vm_compute.
Defined.

(** The example of the spec: one line at price 100, quantity 2, method
    "cod" gives totalAmount 250, and the stock falls from 5 to 3. *)
Example create_order_cod_250 :
  let r := create_order Sample.alice [Sample.line "p1" 2] "addr" (Some "cod")
             Sample.db in
  match r.1 with
  | inr (_, order) => Order.totalAmount order = to_number 250
  | inl _ => False
  end
  ∧ Product.stock <$> products r.2 !! "p1" = Some 3.
Proof. by vm_compute. Qed.

(** The total is the machine's: three items at 0.1 (written 1/10) are
    billed 0.30000000000000004, which is not the number 3/10; three items
    at 2^53 - 1 are billed 27021597764222972, one less than the product. *)
Example create_order_binary64_totals :
  let billed price :=
    match (create_order Sample.alice [Sample.line "p" 3] "addr" (Some "card")
             (mkDb {[ "p" := Product.mk "Pin" "misc" price 9 false ]} ∅)).1
    with
    | inr (_, order) => Some (Order.totalAmount order)
    | inl _ => None
    end in
  billed (PrimFloat.div (to_number 1) (to_number 10))
  = Some (PrimFloat.div (to_number 30000000000000004)
            (to_number 100000000000000000))
  ∧ billed (PrimFloat.div (to_number 1) (to_number 10))
    ≠ Some (PrimFloat.div (to_number 3) (to_number 10))
  ∧ billed (to_number 9007199254740991) = Some (to_number 27021597764222972).
Proof.
  split_and!; [by vm_compute| |by vm_compute].
  intros H.
  apply (f_equal (λ o, match o with
                       | Some x =>
                           PrimFloat.Leibniz.eqb x
                             (PrimFloat.div (to_number 3) (to_number 10))
                       | None => false
                       end)) in H.
  vm_compute in H. discriminate.
Qed.

(** C2: when the lines before some line have been processed and that line
    asks for more than its product's stock at that moment, the creation
    fails with InsufficientStock (with NotFound when that product is not
    stored) and the database is left exactly as the earlier lines made it:
    no order is stored, the products the earlier lines do not name are as
    before the request, and the deductions of the earlier lines stay. *)
Theorem create_order_fails_midway requester pre item post shippingAddress
    paymentMethod db r db1 :
  process_items pre (to_number 0) [] db = (inr r, db1) →
  (∀ p, products db1 !! Item.product item = Some p →
        Product.stock p < Item.quantity item →
        create_order requester (pre ++ item :: post) shippingAddress
          paymentMethod db = (inl InsufficientStock, db1))
  ∧ (products db1 !! Item.product item = None →
     create_order requester (pre ++ item :: post) shippingAddress
       paymentMethod db = (inl NotFound, db1))
  ∧ orders db1 = orders db
  ∧ (∀ id, id ∉ Item.product <$> pre →
           products db1 !! id = products db !! id)
  ∧ products db1
    = adjust_stock (λ p, - demand p (request_lines pre)) (products db).
Proof.
  intros Hpre.
  assert (Hloop : ∀ f,
    process_items (item :: post) r.1 r.2 db1 = (inl f, db1) →
    create_order requester (pre ++ item :: post) shippingAddress
      paymentMethod db = (inl f, db1)).
  { intros f Hf. apply create_order_loop_failed.
    rewrite process_items_app, Hpre. by destruct r. }
  apply process_items_inr in Hpre as (_ & Hps & Hos).
  split_and!; [| |done| |done].
  - intros p Hp Hlt. apply Hloop. simpl. unfold bind, findProduct. simpl.
    rewrite Hp. by destruct (Z.ltb_spec (Product.stock p) (Item.quantity item));
      [|lia].
  - intros Hp. apply Hloop. simpl. unfold bind, findProduct. simpl.
    by rewrite Hp.
  - intros id Hid. rewrite Hps, lookup_adjust_stock.
    rewrite demand_absent.
    + destruct (products db !! id) as [p|]; [|done]. simpl.
      by rewrite Z.add_0_r, with_stock_same.
    + unfold request_lines. by rewrite <- list_fmap_compose.
Qed.

Lemma create_order_fails_midway_witness :
  let db1 := (process_items [Sample.line "p1" 2] (to_number 0) [] Sample.db).2 in
  create_order Sample.alice
    ([Sample.line "p1" 2] ++ Sample.line "p2" 4 :: [Sample.line "p1" 1])
    "addr" (Some "cod") Sample.db = (inl InsufficientStock, db1)
  ∧ create_order Sample.alice
      ([Sample.line "p1" 2] ++ Sample.line "p9" 1 :: [Sample.line "p1" 1])
      "addr" (Some "cod") Sample.db = (inl NotFound, db1)
  ∧ Product.stock <$> products db1 !! "p1" = Some 3
  ∧ Product.stock <$> products db1 !! "p2" = Some 1.
Proof.
  intros db1.
  assert (Hpre : process_items [Sample.line "p1" 2] (to_number 0) [] Sample.db
                 = (inr (to_number 200,
                         [snapshot (Sample.line "p1" 2) Sample.shirt]),
                    db1)) by reflexivity.
  split_and!; [| |by vm_compute..].
  - eapply (create_order_fails_midway Sample.alice [Sample.line "p1" 2]
              (Sample.line "p2" 4) [Sample.line "p1" 1] "addr" (Some "cod")
              Sample.db _ db1 Hpre).
    + by vm_compute.
    + simpl. lia.
  - eapply (create_order_fails_midway Sample.alice [Sample.line "p1" 2]
              (Sample.line "p9" 1) [Sample.line "p1" 1] "addr" (Some "cod")
              Sample.db _ db1 Hpre).
    by vm_compute.
Defined.

(** C8 at the failing input: with the payment method left out, the loop
    deducts the stock (5 to 4) and the handler then stops with the 500
    reply of its [catch]; no order is stored. *)
Theorem create_order_method_omitted_fails :
  let r := create_order Sample.alice [Sample.line "p1" 1] "addr" None
             Sample.db in
  r.1 = inl UnexpectedError
  ∧ http_status UnexpectedError = 500
  ∧ orders r.2 = ∅
  ∧ Product.stock <$> products r.2 !! "p1" = Some 4.
Proof. by vm_compute. Qed.

(** The same for every request: without a payment method no order is ever
    created. *)
Lemma create_order_method_omitted requester items shippingAddress db :
  ∃ f, (create_order requester items shippingAddress None db).1 = inl f
       ∧ orders (create_order requester items shippingAddress None db).2
         = orders db.
Proof.
  destruct items as [|i rest]; [by exists ValidationError|].
  destruct (process_items (i :: rest) (to_number 0) [] db) as [[f|[t a]] db'] eqn:Hrun.
  - rewrite (create_order_loop_failed _ _ _ _ _ _ _ Hrun). exists f.
    split; [done|]. simpl.
    by rewrite <- (process_items_orders (i :: rest) (to_number 0) [] db), Hrun.
  - assert (Hne : i :: rest ≠ []) by discriminate.
    rewrite (create_order_after_loop _ _ _ _ _ _ _ _ Hne Hrun).
    exists UnexpectedError. split; [done|]. simpl.
    by rewrite <- (process_items_orders (i :: rest) (to_number 0) [] db), Hrun.
Qed.

(** C10: if no stored product has a negative stock before POST /orders,
    none has one after it, whatever the request (repeated product ids
    included) and whatever the outcome. *)
Theorem create_order_stock_nonneg requester items shippingAddress
    paymentMethod db :
  stock_nonneg db →
  stock_nonneg
    (create_order requester items shippingAddress paymentMethod db).2.
Proof.
  intros Hnn. destruct items as [|i rest]; [done|].
  pose proof (process_items_nonneg (i :: rest) (to_number 0) [] db Hnn) as Hloop.
  destruct (process_items (i :: rest) (to_number 0) [] db) as [[f|[t a]] db'] eqn:Hrun.
  - by rewrite (create_order_loop_failed _ _ _ _ _ _ _ Hrun).
  - assert (Hne : i :: rest ≠ []) by discriminate.
    rewrite (create_order_after_loop _ _ _ _ _ _ _ _ Hne Hrun).
    by destruct paymentMethod.
Qed.

Lemma create_order_stock_nonneg_witness :
  stock_nonneg Sample.db
  ∧ stock_nonneg
      (create_order Sample.alice
         [Sample.line "p1" 3; Sample.line "p1" 3; Sample.line "p2" 1]
         "addr" (Some "cod") Sample.db).2.
Proof.
  assert (H0 : stock_nonneg Sample.db).
  { unfold stock_nonneg, Sample.db. simpl.
    apply map_Forall_insert_2; [by vm_compute|].
    apply map_Forall_insert_2; [by vm_compute|].
    apply map_Forall_empty. }
  split; [exact H0|]. by apply create_order_stock_nonneg.
Defined.

(** ** PUT /orders/:id/cancel, GET /orders/:id: statements *)

Lemma db_eta db : mkDb (products db) (orders db) = db.
Proof. by destruct db. Qed.

(** The restoring loop always completes; it adds to every stored product
    the quantity the order holds of it and skips the products not stored. *)
Lemma restore_stock_spec items : ∀ db,
  restore_stock items db
  = (inr tt,
     mkDb (adjust_stock (λ p, demand p (order_lines items)) (products db))
          (orders db)).
Proof.
  induction items as [|i rest IH]; intros db.
  - simpl. unfold ret. rewrite adjust_stock_zero by done.
    by rewrite db_eta.
  - simpl. unfold bind at 1 2, findProduct. simpl.
    destruct (products db !! OrderItem.product i) as [p|] eqn:Hp.
    + unfold saveProduct. rewrite IH. simpl. do 2 f_equal.
      by rewrite (adjust_stock_insert _ _ _ _ _ Hp).
    + unfold ret. rewrite IH. do 2 f_equal.
      apply map_eq. intros k. rewrite !lookup_adjust_stock.
      destruct (products db !! k) as [q|] eqn:Hk; [|done].
      simpl. rewrite decide_False by congruence. done.
Qed.

Lemma not_authorized_false requester owner :
  not_authorized requester owner = false
  ↔ Requester.role requester = "admin" ∨ Requester._id requester = owner.
Proof.
  unfold not_authorized.
  rewrite andb_false_iff, !negb_false_iff, !String.eqb_eq.
  split; (intros [?|?]; [by left|by right]).
Qed.

Lemma not_authorized_true requester owner :
  not_authorized requester owner = true
  ↔ Requester.role requester ≠ "admin" ∧ Requester._id requester ≠ owner.
Proof.
  unfold not_authorized.
  rewrite andb_true_iff, !negb_true_iff, !String.eqb_neq.
  split; (intros [? ?]; split; congruence).
Qed.

Lemma truthy_Some r : truthy (Some r) = true ↔ r ≠ "".
Proof. simpl. by rewrite negb_true_iff, String.eqb_neq. Qed.

Lemma truthy_false v : truthy v = false ↔ v = None ∨ v = Some "".
Proof.
  destruct v as [r|]; simpl; [|by split; [left|]].
  rewrite negb_false_iff, String.eqb_eq.
  split; [intros ->; by right|intros [?|?]; congruence].
Qed.

Lemma terminal_check s :
  bool_decide (s ∈ [Delivered; Cancelled])
  = bool_decide (s = Delivered ∨ s = Cancelled).
Proof.
  apply bool_decide_ext. rewrite !elem_of_cons, elem_of_nil. tauto.
Qed.

(** The cancellation, with its loop replaced by what the loop does. *)
Lemma cancel_order_unfold requester id reason db :
  cancel_order requester id reason db
  = if negb (truthy reason) then (inl ValidationError, db)
    else match orders db !! id with
         | None => (inl NotFound, db)
         | Some order =>
             if not_authorized requester (Order.user order)
             then (inl Forbidden, db)
             else if bool_decide (Order.status order = Delivered
                                  ∨ Order.status order = Cancelled)
             then (inl InvalidState, db)
             else
               let order' :=
                 Order.with_cancellationReason (default "" reason)
                   (Order.with_status Cancelled order) in
               (inr order',
                mkDb (adjust_stock
                        (λ p, demand p (order_lines (Order.items order)))
                        (products db))
                     (<[id := order']> (orders db)))
         end.
Proof.
  unfold cancel_order. destruct (truthy reason); simpl; [|done].
  unfold bind at 1, findOrder. destruct (orders db !! id) as [order|]; [|done].
  destruct (not_authorized _ _); [done|].
  rewrite terminal_check. case_bool_decide; [done|].
  unfold bind at 1. by rewrite restore_stock_spec.
Qed.

(** The reply of the cancellation once its four checks have passed. *)
Lemma cancel_order_passes requester id r order db :
  r ≠ "" →
  orders db !! id = Some order →
  Requester.role requester = "admin"
  ∨ Requester._id requester = Order.user order →
  Order.status order ≠ Delivered → Order.status order ≠ Cancelled →
  let order' :=
    Order.with_cancellationReason r (Order.with_status Cancelled order) in
  cancel_order requester id (Some r) db
  = (inr order',
     mkDb (adjust_stock (λ p, demand p (order_lines (Order.items order)))
             (products db))
          (<[id := order']> (orders db))).
Proof.
  intros Hr Ho Hauth Hd Hc order'. rewrite cancel_order_unfold.
  apply truthy_Some in Hr. apply not_authorized_false in Hauth.
  rewrite Hr, Ho, Hauth. simpl.
  by rewrite bool_decide_eq_false_2 by tauto.
Qed.

(** The refusals of the cancellation, in the order of its checks. *)
Lemma cancel_order_no_reason requester id reason db :
  reason = None ∨ reason = Some "" →
  cancel_order requester id reason db = (inl ValidationError, db).
Proof.
  intros Hr. apply truthy_false in Hr.
  by rewrite cancel_order_unfold, Hr.
Qed.

Lemma cancel_order_forbidden requester id r order db :
  r ≠ "" →
  orders db !! id = Some order →
  Requester.role requester ≠ "admin" →
  Requester._id requester ≠ Order.user order →
  cancel_order requester id (Some r) db = (inl Forbidden, db).
Proof.
  intros Hr Ho Hrole Hid. rewrite cancel_order_unfold.
  apply truthy_Some in Hr. rewrite Hr, Ho. simpl.
  by rewrite (proj2 (not_authorized_true _ _) (conj Hrole Hid)).
Qed.

Lemma cancel_order_terminal requester id r order db :
  r ≠ "" →
  orders db !! id = Some order →
  Requester.role requester = "admin"
  ∨ Requester._id requester = Order.user order →
  Order.status order = Delivered ∨ Order.status order = Cancelled →
  cancel_order requester id (Some r) db = (inl InvalidState, db).
Proof.
  intros Hr Ho Hauth Hst. rewrite cancel_order_unfold.
  apply truthy_Some in Hr. apply not_authorized_false in Hauth.
  rewrite Hr, Ho, Hauth. simpl. by rewrite bool_decide_eq_true_2.
Qed.

(** Whoever asks and whatever the reason, cancelling a delivered or
    cancelled order is refused and writes nothing. *)
Lemma cancel_order_terminal_unchanged requester id reason order db :
  orders db !! id = Some order →
  Order.status order = Delivered ∨ Order.status order = Cancelled →
  ∃ f, cancel_order requester id reason db = (inl f, db).
Proof.
  intros Ho Hst. rewrite cancel_order_unfold, Ho.
  destruct (truthy reason); simpl; [|by eexists].
  destruct (not_authorized _ _); [by eexists|].
  rewrite bool_decide_eq_true_2 by done. by eexists.
Qed.

(** A refused cancellation writes nothing. *)
Lemma cancel_order_refused_unchanged requester id reason db f db' :
  cancel_order requester id reason db = (inl f, db') → db' = db.
Proof.
  rewrite cancel_order_unfold.
  destruct (negb (truthy reason)); [congruence|].
  destruct (orders db !! id) as [order|]; [|congruence].
  destruct (not_authorized _ _); [congruence|].
  case_bool_decide; [congruence|]. done.
Qed.

(** C3: cancelling a pending, processing or shipped order with a non-empty
    reason, as its owner or as an admin, succeeds; every stored product
    gets back the quantity the order's lines hold of it, a line whose
    product is no longer stored changes nothing, the order is stored as
    cancelled with the reason, and any later cancellation of that order by
    an entitled requester with a reason fails with InvalidState. *)
Theorem cancel_order_restores requester id r order db :
  orders db !! id = Some order →
  Order.status order ∈ [Pending; Processing; Shipped] →
  r ≠ "" →
  Requester.role requester = "admin"
  ∨ Requester._id requester = Order.user order →
  let order' :=
    Order.with_cancellationReason r (Order.with_status Cancelled order) in
  let db' :=
    mkDb (adjust_stock (λ p, demand p (order_lines (Order.items order)))
            (products db))
         (<[id := order']> (orders db)) in
  cancel_order requester id (Some r) db = (inr order', db')
  ∧ Order.status order' = Cancelled
  ∧ Order.cancellationReason order' = Some r
  ∧ (∀ p, products db !! p = None → products db' !! p = None)
  ∧ (∀ requester2 r2,
       r2 ≠ "" →
       Requester.role requester2 = "admin"
       ∨ Requester._id requester2 = Order.user order →
       cancel_order requester2 id (Some r2) db' = (inl InvalidState, db')).
Proof.
  intros Ho Hst Hr Hauth order' db'.
  rewrite !elem_of_cons, elem_of_nil in Hst.
  split_and!; [|done|done| |].
  - apply cancel_order_passes; [done..| |]; intros E; rewrite E in Hst;
      by destruct Hst as [?|[?|[?|[]]]].
  - intros p Hp. simpl. by rewrite lookup_adjust_stock, Hp.
  - intros requester2 r2 Hr2 Hauth2.
    apply (cancel_order_terminal _ _ _ order'); [done| |done|by right].
    simpl. by rewrite lookup_insert_eq.
Qed.

Lemma cancel_order_restores_witness :
  let r := cancel_order Sample.alice "o1" (Some "changed my mind")
             (Sample.shop Shipped) in
  r.1 = inr (Order.with_cancellationReason "changed my mind"
               (Sample.order1 Cancelled))
  ∧ Product.stock <$> products r.2 !! "p1" = Some 7
  ∧ cancel_order Sample.root "o1" (Some "again") r.2 = (inl InvalidState, r.2).
Proof.
  assert (Ho : orders (Sample.shop Shipped) !! "o1"
               = Some (Sample.order1 Shipped)) by reflexivity.
  assert (Hst : Order.status (Sample.order1 Shipped)
                ∈ [Pending; Processing; Shipped])
    by (simpl; rewrite !elem_of_cons; tauto).
  assert (Hr : "changed my mind" ≠ "") by discriminate.
  assert (Hauth : Requester.role Sample.alice = "admin"
                  ∨ Requester._id Sample.alice
                    = Order.user (Sample.order1 Shipped)) by (by right).
  destruct (cancel_order_restores Sample.alice "o1" _ _ _ Ho Hst Hr Hauth)
    as (Hrun & _ & _ & _ & Hagain).
  simpl. rewrite Hrun. split_and!; [done|by vm_compute|].
  apply Hagain; [discriminate|by left].
Defined.

Lemma get_order_forbidden requester id order db :
  orders db !! id = Some order →
  Requester.role requester ≠ "admin" →
  Requester._id requester ≠ Order.user order →
  get_order requester id db = (inl Forbidden, db).
Proof.
  intros Ho Hrole Hid. unfold get_order, bind, findOrder. rewrite Ho.
  by rewrite (proj2 (not_authorized_true _ _) (conj Hrole Hid)).
Qed.

(** C7: the cancellation fails with ValidationError when the reason is
    missing or empty; with a reason and a stored order it fails with
    Forbidden for a requester who is neither admin nor owner, and for an
    admin or the owner it fails with InvalidState when the order is
    delivered or cancelled; viewing a stored order as neither admin nor
    owner fails with Forbidden.  In each case, and after any refused
    cancellation, the database is the database before the call: no stock
    restored, no order changed. *)
Theorem cancel_order_refusals requester id db :
  (∀ reason, reason = None ∨ reason = Some "" →
     cancel_order requester id reason db = (inl ValidationError, db))
  ∧ (∀ r order,
       r ≠ "" → orders db !! id = Some order →
       Requester.role requester ≠ "admin" →
       Requester._id requester ≠ Order.user order →
       cancel_order requester id (Some r) db = (inl Forbidden, db))
  ∧ (∀ r order,
       r ≠ "" → orders db !! id = Some order →
       Requester.role requester = "admin"
       ∨ Requester._id requester = Order.user order →
       Order.status order = Delivered ∨ Order.status order = Cancelled →
       cancel_order requester id (Some r) db = (inl InvalidState, db))
  ∧ (∀ order,
       orders db !! id = Some order →
       Requester.role requester ≠ "admin" →
       Requester._id requester ≠ Order.user order →
       get_order requester id db = (inl Forbidden, db))
  ∧ (∀ reason f db',
       cancel_order requester id reason db = (inl f, db') → db' = db).
Proof.
  split_and!.
  - intros reason. apply cancel_order_no_reason.
  - intros r order. apply cancel_order_forbidden.
  - intros r order. apply cancel_order_terminal.
  - intros order. apply get_order_forbidden.
  - intros reason f db'. apply cancel_order_refused_unchanged.
Qed.

Lemma cancel_order_refusals_witness :
  cancel_order Sample.alice "o1" (Some "") (Sample.shop Pending)
  = (inl ValidationError, Sample.shop Pending)
  ∧ cancel_order Sample.bob "o1" (Some "mine now") (Sample.shop Pending)
    = (inl Forbidden, Sample.shop Pending)
  ∧ get_order Sample.bob "o1" (Sample.shop Pending)
    = (inl Forbidden, Sample.shop Pending)
  ∧ cancel_order Sample.alice "o1" (Some "too late") (Sample.shop Delivered)
    = (inl InvalidState, Sample.shop Delivered)
  ∧ cancel_order Sample.root "o1" (Some "too late") (Sample.shop Cancelled)
    = (inl InvalidState, Sample.shop Cancelled).
Proof.
  pose proof (cancel_order_refusals Sample.alice "o1" (Sample.shop Pending))
    as (Hreason & _ & _ & _ & _).
  pose proof (cancel_order_refusals Sample.bob "o1" (Sample.shop Pending))
    as (_ & Hbob & _ & Hview & _).
  pose proof (cancel_order_refusals Sample.alice "o1" (Sample.shop Delivered))
    as (_ & _ & Hdelivered & _ & _).
  pose proof (cancel_order_refusals Sample.root "o1" (Sample.shop Cancelled))
    as (_ & _ & Hcancelled & _ & _).
  split_and!.
  - apply Hreason. by right.
  - apply (Hbob "mine now" (Sample.order1 Pending)); closed_side.
  - apply (Hview (Sample.order1 Pending)); closed_side.
  - apply (Hdelivered "too late" (Sample.order1 Delivered));
      [closed_side|closed_side|by right|by left].
  - apply (Hcancelled "too late" (Sample.order1 Cancelled));
      [closed_side|closed_side|by left|by right].
Defined.

(** ** PUT /orders/:id/status and POST /payments/verify: statements *)

Lemma update_status_stored id status order db :
  orders db !! id = Some order →
  update_status id status db
  = (inr (Order.with_status status order),
     mkDb (products db)
          (<[id := Order.with_status status order]> (orders db))).
Proof.
  intros Ho. unfold update_status, bind, findOrder. by rewrite Ho.
Qed.

Lemma update_status_unknown id status db :
  orders db !! id = None → update_status id status db = (inl NotFound, db).
Proof.
  intros Ho. unfold update_status, bind, findOrder. by rewrite Ho.
Qed.

Section PaymentFacts.
Variable hmac : string → string → string.
Variable secret : option string.

(** The verification, with its database accesses carried out. *)
Lemma verify_payment_unfold a b c d db :
  verify_payment hmac secret a b c d db
  = if negb (truthy a) || negb (truthy b) || negb (truthy c)
    then (inl ValidationError, db)
    else if negb (String.eqb
                    (expectedSignature hmac secret (default "" a)
                       (default "" b))
                    (default "" c))
    then (inl VerificationFailed, db)
    else (inr (Confirmation.mk true (default "" a) (default "" b)),
          if truthy d
          then match orders db !! default "" d with
               | Some order =>
                   mkDb (products db)
                     (<[default "" d := paid (default "" b) order]>
                        (orders db))
               | None => db
               end
          else db).
Proof.
  unfold verify_payment.
  destruct (negb (truthy a) || negb (truthy b) || negb (truthy c));
    [done|].
  destruct (negb (String.eqb _ _)); [done|].
  unfold bind at 1. destruct (truthy d); [|done].
  unfold bind, findOrder. by destruct (orders db !! default "" d).
Qed.

Lemma verify_payment_products a b c d db :
  products (verify_payment hmac secret a b c d db).2 = products db.
Proof.
  rewrite verify_payment_unfold.
  destruct (negb (truthy a) || negb (truthy b) || negb (truthy c));
    [done|].
  destruct (negb (String.eqb _ _)); [done|]. simpl.
  destruct (truthy d); [|done].
  by destruct (orders db !! default "" d).
Qed.
End PaymentFacts.

(** C6, as stated, fails: with an empty gateway order id the handler
    refuses the request before it looks at the signature, although the
    supplied signature is the one recomputed from the two ids. *)
Lemma verify_payment_empty_id_refused :
  Some (expectedSignature Sample.toy_hmac None "" "pay_1")
  = Some "your_test_secret_key/|pay_1"
  ∧ verify_payment Sample.toy_hmac None (Some "") (Some "pay_1")
      (Some "your_test_secret_key/|pay_1") (Some "o1") (Sample.shop Pending)
    = (inl ValidationError, Sample.shop Pending).
Proof. split; reflexivity. Qed.

(** C6 (amended): a request lacking the gateway order id, the payment id
    or the signature (missing or empty) fails with ValidationError.  With
    all three given, the expected signature is the HMAC-SHA256, under the
    shared secret, of "{gatewayOrderId}|{gatewayPaymentId}"; the request
    fails with VerificationFailed exactly when the supplied signature
    differs from it.  On a match the reply is the success payload with the
    two gateway ids; if a local order id was given and that order is
    stored, the order gets paymentInfo {id: payment id, status: completed,
    method: Razorpay} and status processing; if it is not stored, or no
    local id was given, nothing is written. *)
Theorem verify_payment_checks hmac secret db :
  (∀ a b c d,
     truthy a = false ∨ truthy b = false ∨ truthy c = false →
     verify_payment hmac secret a b c d db = (inl ValidationError, db))
  ∧ (∀ gw_order gw_payment signature order_id,
       gw_order ≠ "" → gw_payment ≠ "" → signature ≠ "" →
       let expected :=
         hmac (key_secret secret)
           (String.append gw_order (String.append "|" gw_payment)) in
       let run :=
         verify_payment hmac secret (Some gw_order) (Some gw_payment)
           (Some signature) order_id db in
       (signature ≠ expected ↔ run = (inl VerificationFailed, db))
       ∧ (signature = expected →
          run.1 = inr (Confirmation.mk true gw_order gw_payment)
          ∧ (∀ oid order,
               order_id = Some oid → oid ≠ "" →
               orders db !! oid = Some order →
               run.2 = mkDb (products db)
                         (<[oid := paid gw_payment order]> (orders db)))
          ∧ (∀ oid,
               order_id = Some oid → orders db !! oid = None → run.2 = db)
          ∧ (order_id = None ∨ order_id = Some "" → run.2 = db))).
Proof.
  split.
  - intros a b c d H. rewrite verify_payment_unfold.
    destruct H as [-> | [-> | ->]]; simpl; by rewrite ?orb_true_r.
  - intros gw_order gw_payment signature order_id Ho Hp Hs expected run.
    assert (Hrun : run
      = if negb (String.eqb expected signature)
        then (inl VerificationFailed, db)
        else (inr (Confirmation.mk true gw_order gw_payment),
              if truthy order_id
              then match orders db !! default "" order_id with
                   | Some order =>
                       mkDb (products db)
                         (<[default "" order_id := paid gw_payment order]>
                            (orders db))
                   | None => db
                   end
              else db)).
    { subst run. rewrite verify_payment_unfold.
      apply truthy_Some in Ho, Hp, Hs. by rewrite Ho, Hp, Hs. }
    clearbody run. subst run.
    destruct (String.eqb_spec expected signature) as [Heq|Hne]; simpl.
    + split; [split; [congruence|discriminate]|]. intros _.
      split_and!; [done| | |].
      * intros oid order -> Hoid Hl. apply truthy_Some in Hoid.
        rewrite Hoid. simpl. by rewrite Hl.
      * intros oid -> Hl. simpl. rewrite Hl. by destruct (negb _).
      * intros Hnone. apply truthy_false in Hnone. by rewrite Hnone.
    + split; [split; [done|congruence]|]. congruence.
Qed.

Lemma verify_payment_checks_witness :
  verify_payment Sample.toy_hmac (Some "k") None (Some "pay_1") (Some "sig")
    None (Sample.shop Pending)
  = (inl ValidationError, Sample.shop Pending)
  ∧ verify_payment Sample.toy_hmac (Some "k") (Some "order_1") (Some "pay_1")
      (Some "k/order_1|pay_2") (Some "o1") (Sample.shop Pending)
    = (inl VerificationFailed, Sample.shop Pending)
  ∧ (verify_payment Sample.toy_hmac (Some "k") (Some "order_1")
       (Some "pay_1") (Some "k/order_1|pay_1") (Some "o1")
       (Sample.shop Pending)).2
    = mkDb (products (Sample.shop Pending))
        (<["o1" := paid "pay_1" (Sample.order1 Pending)]>
           (orders (Sample.shop Pending)))
  ∧ verify_payment Sample.toy_hmac (Some "k") (Some "order_1") (Some "pay_1")
      (Some "k/order_1|pay_1") (Some "o9") (Sample.shop Pending)
    = (inr (Confirmation.mk true "order_1" "pay_1"), Sample.shop Pending).
Proof.
  pose proof (verify_payment_checks Sample.toy_hmac (Some "k")
                (Sample.shop Pending)) as [Hmissing Hgiven].
  split_and!.
  - apply Hmissing. by left.
  - apply (Hgiven "order_1" "pay_1" "k/order_1|pay_2" (Some "o1"));
      closed_side.
  - apply (Hgiven "order_1" "pay_1" "k/order_1|pay_1" (Some "o1"));
      closed_side.
  - pose proof (Hgiven "order_1" "pay_1" "k/order_1|pay_1" (Some "o9"))
      as [_ Hok]; [closed_side..|].
    destruct Hok as (H1 & _ & H2 & _); [closed_side|].
    specialize (H2 "o9" eq_refl eq_refl).
    destruct (verify_payment _ _ _ _ _ _ _) as [r db']. simpl in *.
    by rewrite H1, H2.
Defined.

(** C5, as stated, fails: the admin status update moves a delivered order
    back to pending. *)
Lemma delivered_order_reopened :
  Order.status <$> orders (Sample.shop Delivered) !! "o1" = Some Delivered
  ∧ Order.status
      <$> orders (update_status "o1" Pending (Sample.shop Delivered)).2 !! "o1"
    = Some Pending.
Proof. split; reflexivity. Qed.

(** Payment verification does the same to a cancelled order. *)
Example cancelled_order_revived :
  Order.status
    <$> orders
          (verify_payment Sample.toy_hmac None (Some "order_1") (Some "pay_1")
             (Some "your_test_secret_key/order_1|pay_1") (Some "o1")
             (Sample.shop Cancelled)).2 !! "o1"
  = Some Processing.
Proof. reflexivity. Qed.

(** C5 (amended): of the three operations only the cancellation respects
    the terminal states: cancelling a delivered or cancelled order is
    refused and leaves the database as it was.  The admin status update
    stores the requested status and a verified payment stores processing,
    whatever the order's current status. *)
Theorem terminal_status_only_kept_by_cancel id order db :
  orders db !! id = Some order →
  (Order.status order = Delivered ∨ Order.status order = Cancelled →
   ∀ requester reason,
     ∃ f, cancel_order requester id reason db = (inl f, db))
  ∧ (∀ status,
       Order.status
         <$> orders (update_status id status db).2 !! id = Some status)
  ∧ (∀ hmac secret gw_order gw_payment,
       id ≠ "" → gw_order ≠ "" → gw_payment ≠ "" →
       expectedSignature hmac secret gw_order gw_payment ≠ "" →
       Order.status
         <$> orders
               (verify_payment hmac secret (Some gw_order) (Some gw_payment)
                  (Some (expectedSignature hmac secret gw_order gw_payment))
                  (Some id) db).2 !! id
       = Some Processing).
Proof.
  intros Ho. split_and!.
  - intros Hst requester reason.
    by apply (cancel_order_terminal_unchanged _ _ _ order).
  - intros status. rewrite (update_status_stored _ _ _ _ Ho). simpl.
    by rewrite lookup_insert_eq.
  - intros hmac secret gw_order gw_payment Hid Hgo Hgp Hsig.
    rewrite verify_payment_unfold.
    apply truthy_Some in Hid, Hgo, Hgp, Hsig.
    rewrite Hid, Hgo, Hgp, Hsig. simpl.
    rewrite String.eqb_refl, Ho. simpl. by rewrite lookup_insert_eq.
Qed.

Lemma terminal_status_only_kept_by_cancel_witness :
  (∃ f, cancel_order Sample.root "o1" (Some "void") (Sample.shop Delivered)
        = (inl f, Sample.shop Delivered))
  ∧ Order.status
      <$> orders (update_status "o1" Shipped (Sample.shop Delivered)).2 !! "o1"
    = Some Shipped
  ∧ Order.status
      <$> orders
            (verify_payment Sample.toy_hmac None (Some "order_1")
               (Some "pay_1")
               (Some (expectedSignature Sample.toy_hmac None "order_1"
                        "pay_1"))
               (Some "o1") (Sample.shop Delivered)).2 !! "o1"
    = Some Processing.
Proof.
  assert (Ho : orders (Sample.shop Delivered) !! "o1"
               = Some (Sample.order1 Delivered)) by reflexivity.
  destruct (terminal_status_only_kept_by_cancel _ _ _ Ho)
    as (Hcancel & Hstatus & Hverify).
  split_and!.
  - apply Hcancel. by left.
  - apply Hstatus.
  - apply Hverify; closed_side.
Defined.

(** ** GET /products: statements *)





(** Beyond ASCII the model gives no answer: neither for the term "éch"
    (UTF-8 bytes 195 169 99 104), nor for an ASCII term over a catalogue
    holding the name "Écharpe" (bytes 195 137 ...). *)
Example list_products_beyond_ascii :
  let e_acute := String (ascii_of_N 195) (String (ascii_of_N 169) "ch") in
  let echarpe := String (ascii_of_N 195) (String (ascii_of_N 137) "charpe") in
  list_products None None (Some e_acute) Sample.db = None
  ∧ list_products None None (Some "ch")
      (mkDb {[ "p3" := Product.mk echarpe "women" (to_number 30) 2 false ]} ∅)
    = None.
Proof. split; by vm_compute. Qed.




(** ** Stock accounting over sequences of requests *)

Lemma sumZ_perm l1 l2 : l1 ≡ₚ l2 → sumZ l1 = sumZ l2.
Proof.
  induction 1 as [|x l1 l2 _ IH|x y l|l1 l2 l3 _ IH1 _ IH2]; simpl;
    [done|by rewrite IH|lia|congruence].
Qed.

Lemma held_insert_new p id o (os : gmap string Order.t) :
  os !! id = None → held p (<[id := o]> os) = reserved p o + held p os.
Proof.
  intros Hid. unfold held.
  by rewrite (sumZ_perm _ _ (fmap_Permutation _ _ _
                               (map_to_list_insert os id o Hid))).
Qed.

Lemma held_insert_old p id o o' (os : gmap string Order.t) :
  os !! id = Some o →
  held p (<[id := o']> os) = held p os - reserved p o + reserved p o'.
Proof.
  intros Hid.
  rewrite <- (insert_delete_eq os), held_insert_new by apply lookup_delete_eq.
  rewrite <- (insert_delete_id os id o Hid) at 2.
  rewrite (held_insert_new _ _ o) by apply lookup_delete_eq. lia.
Qed.

Lemma held_insert_same p id o o' (os : gmap string Order.t) :
  os !! id = Some o → reserved p o' = reserved p o →
  held p (<[id := o']> os) = held p os.
Proof. intros Hid He. rewrite (held_insert_old _ _ o) by done. lia. Qed.

Lemma stock_of_adjust δ p prod db os :
  products db !! p = Some prod →
  stock_of p (mkDb (adjust_stock δ (products db)) os) = stock_of p db + δ p.
Proof.
  intros Hp. unfold stock_of. simpl.
  by rewrite lookup_adjust_stock, Hp.
Qed.

Lemma balance_same_products p db db' :
  products db' = products db → held p (orders db') = held p (orders db) →
  balance p db' = balance p db.
Proof. unfold balance, stock_of. by intros -> ->. Qed.

Lemma process_items_keeps items : ∀ total acc db p,
  is_Some (products db !! p) →
  is_Some (products (process_items items total acc db).2 !! p).
Proof.
  induction items as [|i rest IH]; intros total acc db p Hp; [done|].
  simpl. unfold bind, findProduct. simpl.
  destruct (products db !! Item.product i) as [q|] eqn:Hq; [|done].
  destruct (Product.stock q <? Item.quantity i); [done|].
  simpl. apply IH. simpl. rewrite lookup_insert_is_Some.
  destruct (decide (Item.product i = p)); [by left|by right].
Qed.

Section TraceFacts.
Variable hmac : string → string → string.
Variable secret : option string.

(** No request adds or removes a product. *)
Lemma step_keeps_products op db p :
  is_Some (products db !! p) →
  is_Some (products (step hmac secret op db) !! p).
Proof.
  intros Hp. destruct op as [rq items addr pm|rq id reason|id st|a b c d];
    simpl.
  - destruct items as [|i rest]; [done|].
    pose proof (process_items_keeps (i :: rest) (to_number 0) [] db p Hp) as Hk.
    destruct (process_items (i :: rest) (to_number 0) [] db) as [[f|[t acc]] db1]
      eqn:Hrun.
    + by rewrite (create_order_loop_failed _ _ _ _ _ _ _ Hrun).
    + assert (Hne : i :: rest ≠ []) by discriminate.
      rewrite (create_order_after_loop _ _ _ _ _ _ _ _ Hne Hrun).
      by destruct pm.
  - rewrite cancel_order_unfold. destruct (negb (truthy reason)); [done|].
    destruct (orders db !! id) as [order|]; [|done].
    destruct (not_authorized _ _); [done|].
    case_bool_decide; [done|]. simpl. rewrite lookup_adjust_stock.
    destruct Hp as [q ->]. by eexists.
  - unfold update_status, bind, findOrder.
    by destruct (orders db !! id).
  - by rewrite verify_payment_products.
Qed.

(** A guarded request leaves the balance of every stored product as it
    was. *)
Lemma step_balance op db p :
  guard op db → is_Some (products db !! p) →
  balance p (step hmac secret op db) = balance p db.
Proof.
  intros Hg [prod Hp].
  destruct op as [rq items addr pm|rq id reason|id st|a b c d]; simpl in *.
  - destruct items as [|i rest]; [done|].
    assert (Hne : i :: rest ≠ []) by discriminate.
    pose proof (process_items_orders (i :: rest) (to_number 0) [] db) as Hos.
    destruct (process_items (i :: rest) (to_number 0) [] db) as [[f|[t acc]] db1]
      eqn:Hloop; simpl in Hos.
    + rewrite (create_order_loop_failed _ _ _ _ _ _ _ Hloop) in Hg |- *.
      simpl. apply balance_same_products; [by apply (Hg f)|by rewrite Hos].
    + rewrite (create_order_after_loop _ _ _ _ _ _ _ _ Hne Hloop)
        in Hg |- *.
      destruct pm as [m|].
      * apply process_items_inr in Hloop as ([= -> ->] & Hps & _).
        cbn zeta. cbn [snd]. rewrite Hps, Hos. unfold balance.
        rewrite (stock_of_adjust _ _ _ _ _ Hp). cbn [orders].
        rewrite held_insert_new
          by (apply not_elem_of_dom; apply is_fresh).
        unfold reserved. cbn [Order.status Order.items].
        rewrite decide_False by done.
        rewrite <- (order_lines_snapshots (products db) (i :: rest)).
        simpl. lia.
      * simpl. apply balance_same_products;
          [by apply (Hg UnexpectedError)|by rewrite Hos].
  - rewrite cancel_order_unfold. destruct (negb (truthy reason)); [done|].
    destruct (orders db !! id) as [order|] eqn:Ho; [|done].
    destruct (not_authorized _ _); [done|].
    case_bool_decide as Hst; [done|]. simpl. unfold balance.
    rewrite (stock_of_adjust _ _ _ _ _ Hp). simpl.
    rewrite (held_insert_old _ _ _ _ _ Ho). unfold reserved. simpl.
    rewrite decide_False by tauto. lia.
  - destruct (orders db !! id) as [order|] eqn:Ho.
    + rewrite (update_status_stored _ _ _ _ Ho). simpl.
      apply balance_same_products; [done|]. simpl.
      apply (held_insert_same _ _ order); [done|].
      unfold reserved. simpl. specialize (Hg order eq_refl).
      repeat case_decide; tauto.
    + by rewrite (update_status_unknown _ _ _ Ho).
  - apply balance_same_products; [apply verify_payment_products|].
    rewrite verify_payment_unfold.
    destruct (negb (truthy a) || negb (truthy b) || negb (truthy c));
      [done|].
    destruct (negb (String.eqb _ _)); [done|]. simpl.
    destruct (truthy d); [|done].
    destruct (orders db !! default "" d) as [order|] eqn:Ho; [|done].
    simpl. apply (held_insert_same _ _ order); [done|].
    unfold reserved. simpl. specialize (Hg order eq_refl).
    by rewrite decide_False.
Qed.
End TraceFacts.

(** C4, as stated, fails.  Alice orders two of the five shirts.  The admin
    status update then stores the order as cancelled without returning the
    two shirts (stock 3); after that it reopens the order twice, and each
    of the two cancellations that follow returns the two shirts, so the
    stock of the one order's product ends at 7. *)
Lemma cancelled_unrestored_then_restored_twice :
  let db1 :=
    run Sample.toy_hmac None
      [Sample.buy_two_shirts; UpdateStatus "0" Cancelled] Sample.db in
  let db2 :=
    run Sample.toy_hmac None
      [UpdateStatus "0" Pending; CancelOrder Sample.alice "0" (Some "late");
       UpdateStatus "0" Pending; CancelOrder Sample.alice "0" (Some "late")]
      db1 in
  stock_of "p1" Sample.db = 5
  ∧ Order.status <$> orders db1 !! "0" = Some Cancelled
  ∧ stock_of "p1" db1 = 3
  ∧ Order.status <$> orders db2 !! "0" = Some Cancelled
  ∧ stock_of "p1" db2 = 7.
Proof. by vm_compute. Qed.

(** A creation refused at its second line keeps the deduction of its first
    line, which then belongs to no order: the balance of the shirts falls
    from 5 to 3. *)
Example refused_creation_leaks :
  let op :=
    CreateOrder Sample.alice [Sample.line "p1" 2; Sample.line "p2" 4] "addr"
      (Some "cod") in
  balance "p1" Sample.db = 5
  ∧ balance "p1" (step Sample.toy_hmac None op Sample.db) = 3.
Proof. by vm_compute. Qed.

(** C4 (amended): along every sequence of creations, cancellations, admin
    status updates and payment verifications in which no status update or
    payment verification moves an order into or out of cancelled, and no
    creation is refused after it has written a product, the stock of every
    stored product plus the quantities that the orders not cancelled hold
    of it stays what it was: the quantity an order took out at its
    creation is out of the stock while the order is not cancelled and back
    in it, once, when the order is cancelled. *)
Theorem stock_balance_preserved hmac secret ops : ∀ db,
  guarded hmac secret ops db →
  ∀ p, is_Some (products db !! p) →
       balance p (run hmac secret ops db) = balance p db.
Proof.
  induction ops as [|op rest IH]; intros db Hg p Hp; [done|].
  destruct Hg as [Hop Hrest]. simpl.
  change (foldl _ ?d rest) with (run hmac secret rest d).
  rewrite IH; [by apply step_balance|done|by apply step_keeps_products].
Qed.

Lemma stock_balance_preserved_witness :
  let ops :=
    [Sample.buy_two_shirts;
     VerifyPayment (Some "order_1") (Some "pay_1")
       (Some "your_test_secret_key/order_1|pay_1") (Some "0");
     UpdateStatus "0" Shipped;
     CancelOrder Sample.alice "0" (Some "late");
     CancelOrder Sample.root "0" (Some "again")] in
  balance "p1" (run Sample.toy_hmac None ops Sample.db) = 5
  ∧ balance "p1" Sample.db = 5
  ∧ stock_of "p1" (run Sample.toy_hmac None (take 3 ops) Sample.db) = 3
  ∧ stock_of "p1" (run Sample.toy_hmac None ops Sample.db) = 5.
Proof.
  intros ops.
  assert (Hg : guarded Sample.toy_hmac None ops Sample.db).
  { subst ops. cbn [guarded]. split_and!; [| | |exact I..].
    - intros f db' H. vm_compute in H. discriminate.
    - intros order H. vm_compute in H. injection H as <-.
      simpl. discriminate.
    - intros order H. vm_compute in H. injection H as <-.
      simpl. split; discriminate. }
  assert (Hp : is_Some (products Sample.db !! "p1"))
    by (exists Sample.shirt; reflexivity).
  rewrite (stock_balance_preserved _ _ ops Sample.db Hg "p1" Hp).
  by vm_compute.
Defined.

(** * Further properties of the routes *)

(** ** POST /orders *)

Lemma adjust_stock_core δ (ps : gmap string Product.t) p :
  product_core <$> adjust_stock δ ps !! p = product_core <$> ps !! p.
Proof. rewrite lookup_adjust_stock. by destruct (ps !! p). Qed.

Lemma adjust_stock_compose δ1 δ2 (ps : gmap string Product.t) :
  adjust_stock δ1 (adjust_stock δ2 ps) = adjust_stock (λ p, δ2 p + δ1 p) ps.
Proof.
  apply map_eq. intros p. rewrite !lookup_adjust_stock.
  destruct (ps !! p) as [q|]; [|done]. simpl.
  unfold Product.with_stock. simpl. do 2 f_equal. lia.
Qed.

(** Whatever its outcome, the loop has moved stocks only, and with
    non-negative quantities only downwards. *)
Lemma process_items_adjust items : ∀ total acc db,
  ∃ δ, products (process_items items total acc db).2
       = adjust_stock δ (products db)
       ∧ (Forall (λ i, 0 ≤ Item.quantity i) items → ∀ p, δ p ≤ 0).
Proof.
  induction items as [|i rest IH]; intros total acc db.
  - exists (λ _, 0). split; [|done]. simpl. by rewrite adjust_stock_zero.
  - simpl. unfold bind, findProduct. simpl.
    destruct (products db !! Item.product i) as [q|] eqn:Hq.
    2:{ exists (λ _, 0). split; [|done]. simpl. by rewrite adjust_stock_zero. }
    destruct (Product.stock q <? Item.quantity i).
    { exists (λ _, 0). split; [|done]. simpl. by rewrite adjust_stock_zero. }
    simpl.
    destruct (IH (PrimFloat.add total
                    (PrimFloat.mul (Product.price q)
                       (to_number (Item.quantity i))))
                (acc ++ [snapshot i q])
                (mkDb (<[Item.product i :=
                           Product.with_stock
                             (Product.stock q - Item.quantity i) q]>
                         (products db)) (orders db))) as (δ & Hδ & Hle).
    exists (λ k, (if decide (Item.product i = k)
                  then - Item.quantity i else 0) + δ k).
    split.
    + rewrite Hδ. simpl.
      replace (Product.stock q - Item.quantity i)
        with (Product.stock q + - Item.quantity i) by lia.
      by rewrite (adjust_stock_insert _ _ _ _ _ Hq).
    + intros Hnn p. apply Forall_cons in Hnn as [Hi Hr].
      specialize (Hle Hr p). case_decide; lia.
Qed.

(** The state POST /orders leaves: the loop's state, plus the new order
    under a fresh id when the request got that far. *)
Lemma create_order_state requester items shippingAddress paymentMethod db :
  let db1 := (process_items items (to_number 0) [] db).2 in
  let db' :=
    (create_order requester items shippingAddress paymentMethod db).2 in
  products db' = products db1
  ∧ (orders db' = orders db
     ∨ ∃ order,
         orders db' = <[fresh (dom (orders db)) := order]> (orders db)
         ∧ Order.user order = Requester._id requester
         ∧ order_lines (Order.items order) = request_lines items
         ∧ Order.status order = Pending).
Proof.
  cbv zeta. destruct items as [|i rest]; [by split; [|left]|].
  assert (Hne : i :: rest ≠ []) by discriminate.
  pose proof (process_items_orders (i :: rest) (to_number 0) [] db) as Hos.
  destruct (process_items (i :: rest) (to_number 0) [] db) as [[f|[t acc]] db1] eqn:Hloop;
    simpl in Hos.
  - rewrite (create_order_loop_failed _ _ _ _ _ _ _ Hloop).
    split; [done|by left].
  - rewrite (create_order_after_loop _ _ _ _ _ _ _ _ Hne Hloop).
    destruct paymentMethod as [m|]; [|split; [done|by left]].
    cbv zeta. cbn [snd products orders]. split; [done|right].
    rewrite Hos. eexists. split; [done|]. cbn [Order.user Order.items
      Order.status].
    apply process_items_inr in Hloop as ([= -> ->] & _ & _).
    split_and!; [done| |done].
    by rewrite <- (order_lines_snapshots (products db) (i :: rest)).
Qed.

(** X1: POST /orders, whatever the request and the outcome, leaves every
    stored order as it was, adds and removes no product, and changes of a
    product nothing but its stock. *)
Theorem create_order_frame requester items shippingAddress paymentMethod db :
  let db' :=
    (create_order requester items shippingAddress paymentMethod db).2 in
  (∀ id, is_Some (orders db !! id) → orders db' !! id = orders db !! id)
  ∧ (∀ p, product_core <$> products db' !! p
          = product_core <$> products db !! p).
Proof.
  destruct (create_order_state requester items shippingAddress paymentMethod
              db) as [Hps Hos]. simpl in *. split.
  - intros id Hid. destruct Hos as [->|(order & -> & _)]; [done|].
    rewrite lookup_insert_ne; [done|]. intros <-.
    by apply (is_fresh (dom (orders db))), elem_of_dom.
  - intros p. rewrite Hps.
    destruct (process_items_adjust items (to_number 0) [] db) as (δ & -> & _).
    apply adjust_stock_core.
Qed.

(** X2: when no line of the request has a negative quantity, POST /orders
    raises no product's stock, whatever the outcome. *)
Theorem create_order_never_raises_stock requester items shippingAddress
    paymentMethod db p prod prod' :
  Forall (λ i, 0 ≤ Item.quantity i) items →
  products db !! p = Some prod →
  products (create_order requester items shippingAddress paymentMethod db).2
    !! p = Some prod' →
  Product.stock prod' ≤ Product.stock prod.
Proof.
  intros Hnn Hp Hp'.
  destruct (create_order_state requester items shippingAddress paymentMethod
              db) as [Hps _]. simpl in Hps. rewrite Hps in Hp'.
  destruct (process_items_adjust items (to_number 0) [] db) as (δ & Hδ & Hle).
  rewrite Hδ, lookup_adjust_stock, Hp in Hp'. injection Hp' as <-.
  simpl. specialize (Hle Hnn p). lia.
Qed.

Lemma create_order_never_raises_stock_witness :
  Product.stock (Product.with_stock 3 Sample.shirt)
  ≤ Product.stock Sample.shirt.
Proof.
  apply (create_order_never_raises_stock Sample.alice
           [Sample.line "p1" 2; Sample.line "p2" 4] "addr" (Some "cod")
           Sample.db "p1" Sample.shirt (Product.with_stock 3 Sample.shirt)).
  - repeat constructor; simpl; lia.
  - reflexivity.
  - reflexivity.
Defined.

Lemma create_order_frame_witness :
  orders
    (create_order Sample.bob [Sample.line "p1" 9] "addr" (Some "cod")
       (Sample.shop Shipped)).2 !! "o1"
  = Some (Sample.order1 Shipped).
Proof.
  destruct (create_order_frame Sample.bob [Sample.line "p1" 9] "addr"
              (Some "cod") (Sample.shop Shipped)) as [Horders _].
  rewrite Horders; [reflexivity|]. by exists (Sample.order1 Shipped).
Defined.

(** A refused loop was refused at one of its lines, for that line's
    product as the earlier lines left it. *)
Lemma process_items_inl items : ∀ total acc db f db',
  process_items items total acc db = (inl f, db') →
  ∃ item, item ∈ items
    ∧ ((f = NotFound ∧ products db' !! Item.product item = None)
       ∨ (f = InsufficientStock
          ∧ ∃ prod, products db' !! Item.product item = Some prod
                    ∧ Product.stock prod < Item.quantity item)).
Proof.
  induction items as [|i rest IH]; intros total acc db f db' Hrun; [done|].
  simpl in Hrun. unfold bind, findProduct in Hrun. simpl in Hrun.
  destruct (products db !! Item.product i) as [q|] eqn:Hq.
  2:{ injection Hrun as <- <-. exists i. split; [by left|]. by left. }
  destruct (Z.ltb_spec (Product.stock q) (Item.quantity i)) as [Hlt|_].
  { injection Hrun as <- <-. exists i. split; [by left|]. right. eauto. }
  simpl in Hrun. apply IH in Hrun as (item & Hin & Hcase).
  exists item. split; [by right|done].
Qed.

(** X3: what a refusal of POST /orders tells.  ValidationError means the
    request had no line, and nothing was written; NotFound means some line
    of the request names a product that is not stored; InsufficientStock
    means some line's product, in the database the reply leaves, is
    stocked below the line's quantity. *)
Theorem create_order_failures requester items shippingAddress paymentMethod
    db f db' :
  create_order requester items shippingAddress paymentMethod db
  = (inl f, db') →
  (f = ValidationError → items = [] ∧ db' = db)
  ∧ (f = NotFound →
     ∃ item, item ∈ items ∧ products db' !! Item.product item = None)
  ∧ (f = InsufficientStock →
     ∃ item prod, item ∈ items
       ∧ products db' !! Item.product item = Some prod
       ∧ Product.stock prod < Item.quantity item).
Proof.
  intros Hrun. destruct items as [|i rest].
  { injection Hrun as <- <-. by split_and!. }
  assert (Hne : i :: rest ≠ []) by discriminate.
  destruct (process_items (i :: rest) (to_number 0) [] db)
    as [[f1|[t acc]] db1] eqn:Hloop.
  - rewrite (create_order_loop_failed _ _ _ _ _ _ _ Hloop) in Hrun.
    injection Hrun as <- <-.
    apply process_items_inl in Hloop
      as (item & Hin & [[-> Hnone]|(-> & prod & Hp & Hlt)]).
    + split_and!; [done|by eauto|done].
    + split_and!; [done|done|by eauto 6].
  - rewrite (create_order_after_loop _ _ _ _ _ _ _ _ Hne Hloop) in Hrun.
    destruct paymentMethod; [done|]. injection Hrun as <- <-.
    by split_and!.
Qed.

Lemma create_order_failures_witness :
  ∃ item prod,
    item ∈ [Sample.line "p1" 2; Sample.line "p2" 4]
    ∧ products
        (create_order Sample.alice [Sample.line "p1" 2; Sample.line "p2" 4]
           "addr" (Some "cod") Sample.db).2 !! Item.product item
      = Some prod
    ∧ Product.stock prod < Item.quantity item.
Proof.
  destruct (create_order_failures Sample.alice
              [Sample.line "p1" 2; Sample.line "p2" 4] "addr" (Some "cod")
              Sample.db InsufficientStock
              (create_order Sample.alice
                 [Sample.line "p1" 2; Sample.line "p2" 4] "addr"
                 (Some "cod") Sample.db).2)
    as (_ & _ & Hstock); [reflexivity|].
  by apply Hstock.
Defined.

(** ** POST /orders followed by PUT /orders/:id/cancel *)

(** X4: an order that was created and is then cancelled, by its creator or
    by an admin, before anything else touched its status, gives every
    product back exactly: the products are those before the creation, and
    the order stays stored, as cancelled. *)
Theorem create_then_cancel_restores requester items shippingAddress
    paymentMethod db id order db1 canceller reason :
  create_order requester items shippingAddress paymentMethod db
  = (inr (id, order), db1) →
  reason ≠ "" →
  Requester.role canceller = "admin"
  ∨ Requester._id canceller = Requester._id requester →
  let order' :=
    Order.with_cancellationReason reason (Order.with_status Cancelled order) in
  orders db !! id = None
  ∧ cancel_order canceller id (Some reason) db1
    = (inr order', mkDb (products db) (<[id := order']> (orders db))).
Proof.
  intros Hrun Hr Hauth order'.
  destruct items as [|i rest]; [done|].
  assert (Hne : i :: rest ≠ []) by discriminate.
  destruct (process_items (i :: rest) (to_number 0) [] db) as [[f1|[t acc]] db2] eqn:Hloop.
  { by rewrite (create_order_loop_failed _ _ _ _ _ _ _ Hloop) in Hrun. }
  rewrite (create_order_after_loop _ _ _ _ _ _ _ _ Hne Hloop) in Hrun.
  destruct paymentMethod as [m|]; [|done].
  apply process_items_inr in Hloop as ([= -> ->] & Hps & Hos).
  cbv zeta in Hrun. rewrite Hps, Hos in Hrun.
  injection Hrun as <- <- <-.
  split; [apply not_elem_of_dom, is_fresh|].
  rewrite (cancel_order_passes canceller _ reason _ _ Hr
             (lookup_insert_eq _ _ _)); [|done..].
  cbn [Order.items products orders app]. f_equal. f_equal.
  - rewrite adjust_stock_compose. apply adjust_stock_zero. intros p _.
    rewrite demand_order_cons, order_lines_snapshots. simpl. lia.
  - by rewrite insert_insert_eq.
Qed.

Lemma create_then_cancel_restores_witness :
  let created :=
    create_order Sample.alice [Sample.line "p1" 2; Sample.line "p2" 1]
      "addr" (Some "cod") Sample.db in
  products (cancel_order Sample.alice "0" (Some "changed my mind") created.2).2
  = products Sample.db.
Proof.
  intros created.
  destruct (create_then_cancel_restores Sample.alice
              [Sample.line "p1" 2; Sample.line "p2" 1] "addr" (Some "cod")
              Sample.db "0"
              (Order.mk "u1"
                 [OrderItem.mk "p1" 2 (to_number 100) "M" "red";
                  OrderItem.mk "p2" 1 (to_number 40) "M" "red"]
                 (to_number 290) "addr" (PaymentInfo.mk "cod" None None)
                 Pending None)
              created.2 Sample.alice "changed my mind")
    as [_ Hcancel]; [reflexivity|discriminate|by right|].
  by rewrite Hcancel.
Defined.

(** ** The order routes on a single order *)

(** X5: the cancellation succeeds exactly when a non-empty reason is
    given, the order is stored, the requester is an admin or the order's
    owner, and the order is neither delivered nor cancelled. *)
Theorem cancel_order_succeeds_iff requester id reason db :
  (∃ order' db', cancel_order requester id reason db = (inr order', db'))
  ↔ ∃ r order,
      reason = Some r ∧ r ≠ ""
      ∧ orders db !! id = Some order
      ∧ (Requester.role requester = "admin"
         ∨ Requester._id requester = Order.user order)
      ∧ Order.status order ≠ Delivered ∧ Order.status order ≠ Cancelled.
Proof.
  split.
  - intros (order' & db' & Hrun). rewrite cancel_order_unfold in Hrun.
    destruct reason as [r|]; [|done].
    destruct (truthy (Some r)) eqn:Ht; [|done]. apply truthy_Some in Ht.
    simpl in Hrun.
    destruct (orders db !! id) as [order|]; [|done].
    destruct (not_authorized requester (Order.user order)) eqn:Hauth; [done|].
    apply not_authorized_false in Hauth.
    case_bool_decide as Hst; [done|].
    exists r, order. split_and!; [done..| |]; intros E; apply Hst; tauto.
  - intros (r & order & -> & Hr & Ho & Hauth & Hd & Hc).
    rewrite (cancel_order_passes _ _ _ _ _ Hr Ho Hauth Hd Hc). eauto.
Qed.

(** X6: on an id under which no order is stored, viewing, the status
    update and the cancellation (given a reason) all answer NotFound, for
    an admin too, and write nothing. *)
Theorem order_routes_unknown_id requester id db :
  orders db !! id = None →
  get_order requester id db = (inl NotFound, db)
  ∧ (∀ status, update_status id status db = (inl NotFound, db))
  ∧ (∀ r, r ≠ "" →
          cancel_order requester id (Some r) db = (inl NotFound, db)).
Proof.
  intros Ho. split_and!.
  - unfold get_order, bind, findOrder. by rewrite Ho.
  - intros status. by apply update_status_unknown.
  - intros r Hr. apply truthy_Some in Hr.
    by rewrite cancel_order_unfold, Hr, Ho.
Qed.

Lemma order_routes_unknown_id_witness :
  get_order Sample.root "o7" (Sample.shop Pending)
  = (inl NotFound, Sample.shop Pending)
  ∧ update_status "o7" Shipped (Sample.shop Pending)
    = (inl NotFound, Sample.shop Pending)
  ∧ cancel_order Sample.root "o7" (Some "void") (Sample.shop Pending)
    = (inl NotFound, Sample.shop Pending).
Proof.
  destruct (order_routes_unknown_id Sample.root "o7" (Sample.shop Pending))
    as (Hget & Hstatus & Hcancel); [reflexivity|].
  split_and!; [exact Hget|apply Hstatus|apply Hcancel; discriminate].
Defined.

(** X7: viewing an order returns it exactly when it is stored and the
    requester is an admin or its owner; it never writes. *)
Theorem get_order_returns_iff requester id db :
  (∀ order,
     (get_order requester id db).1 = inr order
     ↔ orders db !! id = Some order
       ∧ (Requester.role requester = "admin"
          ∨ Requester._id requester = Order.user order))
  ∧ (get_order requester id db).2 = db.
Proof.
  unfold get_order, bind, findOrder.
  destruct (orders db !! id) as [o|]; simpl.
  - destruct (not_authorized requester (Order.user o)) eqn:Hauth; simpl.
    + split; [|done]. intros order. split; [done|].
      intros [[= ->] Hown]. apply not_authorized_false in Hown. congruence.
    + split; [|done]. apply not_authorized_false in Hauth.
      intros order. split; [by intros [= ->]|by intros [[= ->] _]].
  - split; [|done]. intros order. split; [done|by intros [? _]].
Qed.

(** X8: of two status updates of the same order the later one wins: the
    reply and the database are those of the later update alone. *)
Theorem update_status_last_wins id status1 status2 db :
  update_status id status2 (update_status id status1 db).2
  = update_status id status2 db.
Proof.
  destruct (orders db !! id) as [o|] eqn:Ho.
  - rewrite (update_status_stored _ status1 _ _ Ho). simpl.
    rewrite (update_status_stored _ status2 _ _ Ho).
    erewrite update_status_stored by (simpl; apply lookup_insert_eq).
    simpl. by rewrite insert_insert_eq.
  - by rewrite (update_status_unknown _ status1 _ Ho).
Qed.

(** ** POST /payments/verify *)

(** X9: replaying a verification request changes nothing further: the
    second reply and the database after it are those of the first. *)
Theorem verify_payment_replay hmac secret a b c d db :
  verify_payment hmac secret a b c d (verify_payment hmac secret a b c d db).2
  = verify_payment hmac secret a b c d db.
Proof.
  rewrite (verify_payment_unfold hmac secret a b c d db).
  destruct (negb (truthy a) || negb (truthy b) || negb (truthy c)) eqn:Hm.
  { simpl. by rewrite verify_payment_unfold, Hm. }
  destruct (negb (String.eqb _ _)) eqn:Hs.
  { simpl. by rewrite verify_payment_unfold, Hm, Hs. }
  simpl. rewrite verify_payment_unfold, Hm, Hs. f_equal.
  destruct (truthy d); [|done].
  destruct (orders db !! default "" d) as [o|] eqn:Ho; [|by rewrite Ho].
  simpl. rewrite lookup_insert_eq. by rewrite insert_insert_eq.
Qed.

(** X10: the signature covers the two gateway ids only.  A request that
    verifies keeps verifying when it names any other stored order, of any
    owner, amount and status, and that order is then stored as paid and
    processing. *)
Theorem verify_payment_any_order hmac secret a b c d db confirmation db1 :
  verify_payment hmac secret a b c d db = (inr confirmation, db1) →
  ∀ id2 order2 db2,
    id2 ≠ "" → orders db2 !! id2 = Some order2 →
    verify_payment hmac secret a b c (Some id2) db2
    = (inr confirmation,
       mkDb (products db2)
         (<[id2 := paid (default "" b) order2]> (orders db2))).
Proof.
  intros Hrun id2 order2 db2 Hid Ho. rewrite verify_payment_unfold in Hrun |- *.
  destruct (negb (truthy a) || negb (truthy b) || negb (truthy c)); [done|].
  destruct (negb (String.eqb _ _)); [done|].
  injection Hrun as <- _. apply truthy_Some in Hid.
  by rewrite Hid; simpl; rewrite Ho.
Qed.

Lemma verify_payment_any_order_witness :
  Order.status
    <$> orders
          (verify_payment Sample.toy_hmac None (Some "order_1") (Some "pay_1")
             (Some "your_test_secret_key/order_1|pay_1") (Some "o1")
             (Sample.shop Delivered)).2 !! "o1"
  = Some Processing.
Proof.
  rewrite (verify_payment_any_order Sample.toy_hmac None (Some "order_1")
             (Some "pay_1") (Some "your_test_secret_key/order_1|pay_1")
             None Sample.db (Confirmation.mk true "order_1" "pay_1")
             Sample.db eq_refl "o1" (Sample.order1 Delivered)
             (Sample.shop Delivered)); [reflexivity|discriminate|reflexivity].
Defined.

(** ** Sequences of requests: what never changes *)

Section TraceFrame.
Variable hmac : string → string → string.
Variable secret : option string.

Lemma step_keeps_order op db id o :
  orders db !! id = Some o →
  ∃ o', orders (step hmac secret op db) !! id = Some o'
        ∧ order_core o' = order_core o.
Proof.
  intros Ho. destruct op as [rq items addr pm|rq id1 reason|id1 st|a b c d];
    simpl.
  - destruct (create_order_state rq items addr pm db) as [_ Hos].
    simpl in Hos. exists o. split; [|done].
    destruct Hos as [->|(order & -> & _)]; [done|].
    rewrite lookup_insert_ne; [done|]. intros <-.
    by apply (is_fresh (dom (orders db))), elem_of_dom.
  - rewrite cancel_order_unfold.
    destruct (negb (truthy reason)); [by eauto|].
    destruct (orders db !! id1) as [order|] eqn:Ho1; [|by eauto].
    destruct (not_authorized _ _); [by eauto|].
    case_bool_decide; [by eauto|]. simpl.
    destruct (decide (id1 = id)) as [->|Hne].
    + rewrite lookup_insert_eq. eexists. split; [done|]. by simplify_eq.
    + rewrite lookup_insert_ne by done. eauto.
  - destruct (orders db !! id1) as [order|] eqn:Ho1.
    + rewrite (update_status_stored _ _ _ _ Ho1). simpl.
      destruct (decide (id1 = id)) as [->|Hne].
      * rewrite lookup_insert_eq. eexists. split; [done|]. by simplify_eq.
      * rewrite lookup_insert_ne by done. eauto.
    + rewrite (update_status_unknown _ _ _ Ho1). eauto.
  - rewrite verify_payment_unfold.
    destruct (negb (truthy a) || negb (truthy b) || negb (truthy c));
      [by eauto|].
    destruct (negb (String.eqb _ _)); [by eauto|]. simpl.
    destruct (truthy d); [|by eauto].
    destruct (orders db !! default "" d) as [order|] eqn:Ho1; [|by eauto].
    simpl. destruct (decide (default "" d = id)) as [Heq|Hne].
    + rewrite Heq in *. rewrite lookup_insert_eq.
      eexists. split; [done|]. by simplify_eq.
    + rewrite lookup_insert_ne by done. eauto.
Qed.

Lemma step_keeps_product_core op db p :
  product_core <$> products (step hmac secret op db) !! p
  = product_core <$> products db !! p.
Proof.
  destruct op as [rq items addr pm|rq id1 reason|id1 st|a b c d]; simpl.
  - destruct (create_order_state rq items addr pm db) as [Hps _].
    simpl in Hps. rewrite Hps.
    destruct (process_items_adjust items (to_number 0) [] db) as (δ & -> & _).
    apply adjust_stock_core.
  - rewrite cancel_order_unfold. destruct (negb (truthy reason)); [done|].
    destruct (orders db !! id1) as [order|]; [|done].
    destruct (not_authorized _ _); [done|].
    case_bool_decide; [done|]. simpl. apply adjust_stock_core.
  - unfold update_status, bind, findOrder.
    by destruct (orders db !! id1).
  - by rewrite verify_payment_products.
Qed.

(** X11: along every sequence of creations, cancellations, status updates
    and payment verifications, a stored order stays stored under its id
    with the same owner, lines, totalAmount and shipping address, and
    every product keeps its name, category, price and featured flag; no
    product appears or disappears. *)
Theorem run_frame ops : ∀ db,
  (∀ id o, orders db !! id = Some o →
     ∃ o', orders (run hmac secret ops db) !! id = Some o'
           ∧ order_core o' = order_core o)
  ∧ (∀ p, product_core <$> products (run hmac secret ops db) !! p
          = product_core <$> products db !! p).
Proof.
  induction ops as [|op rest IH]; intros db.
  - split; [by eauto|done].
  - simpl. change (foldl _ ?d rest) with (run hmac secret rest d).
    destruct (IH (step hmac secret op db)) as [IHo IHp]. split.
    + intros id o Ho.
      destruct (step_keeps_order op db id o Ho) as (o1 & Ho1 & Hc1).
      destruct (IHo id o1 Ho1) as (o' & Ho' & Hc'). exists o'.
      split; [done|congruence].
    + intros p. by rewrite IHp, step_keeps_product_core.
Qed.

(** Non-negative stocks and quantities survive every request that itself
    carries no negative quantity. *)
Lemma step_nonneg op db :
  op_nonneg op → stock_nonneg db → orders_nonneg db →
  stock_nonneg (step hmac secret op db)
  ∧ orders_nonneg (step hmac secret op db).
Proof.
  intros Hop Hs Ho.
  destruct op as [rq items addr pm|rq id1 reason|id1 st|a b c d]; simpl in *.
  - destruct (create_order_state rq items addr pm db) as [Hps Hos].
    simpl in *. split.
    + unfold stock_nonneg. rewrite Hps.
      by apply process_items_nonneg.
    + unfold orders_nonneg.
      destruct Hos as [->|(order & -> & _ & Hl & _)]; [done|].
      apply map_Forall_insert_2; [|done]. rewrite Hl.
      unfold request_lines. rewrite Forall_fmap.
      eapply Forall_impl; [exact Hop|done].
  - rewrite cancel_order_unfold. destruct (negb (truthy reason)); [done|].
    destruct (orders db !! id1) as [order|] eqn:Ho1; [|done].
    destruct (not_authorized _ _); [done|].
    case_bool_decide; [done|]. simpl. split.
    + intros p q Hq. simpl in Hq. rewrite lookup_adjust_stock in Hq.
      destruct (products db !! p) as [q0|] eqn:Hq0; [|done].
      injection Hq as <-. simpl.
      pose proof (Hs p q0 Hq0) as H0. simpl in H0.
      pose proof (demand_nonneg p _ (Ho id1 order Ho1)). lia.
    + apply map_Forall_insert_2; [|done]. exact (Ho id1 order Ho1).
  - split.
    + unfold update_status, bind, findOrder.
      by destruct (orders db !! id1).
    + destruct (orders db !! id1) as [order|] eqn:Ho1.
      * rewrite (update_status_stored _ _ _ _ Ho1).
        apply map_Forall_insert_2; [|done]. exact (Ho id1 order Ho1).
      * by rewrite (update_status_unknown _ _ _ Ho1).
  - split.
    + unfold stock_nonneg. by rewrite verify_payment_products.
    + rewrite verify_payment_unfold.
      destruct (negb (truthy a) || negb (truthy b) || negb (truthy c));
        [done|].
      destruct (negb (String.eqb _ _)); [done|]. simpl.
      destruct (truthy d); [|done].
      destruct (orders db !! default "" d) as [order|] eqn:Ho1; [|done].
      apply map_Forall_insert_2; [|done]. exact (Ho _ order Ho1).
Qed.

(** X12: if no stock is negative, no stored order line has a negative
    quantity and no creation request carries one, then after any sequence
    of creations, cancellations, status updates and payment verifications
    no stock is negative. *)
Theorem run_stock_nonneg ops : ∀ db,
  Forall op_nonneg ops → stock_nonneg db → orders_nonneg db →
  stock_nonneg (run hmac secret ops db)
  ∧ orders_nonneg (run hmac secret ops db).
Proof.
  induction ops as [|op rest IH]; intros db Hops Hs Ho; [done|].
  apply Forall_cons in Hops as [Hop Hrest]. simpl.
  change (foldl _ ?d rest) with (run hmac secret rest d).
  destruct (step_nonneg op db Hop Hs Ho) as [Hs1 Ho1]. by apply IH.
Qed.
End TraceFrame.

Lemma run_frame_witness :
  let ops :=
    [Sample.buy_two_shirts; UpdateStatus "o1" Cancelled;
     CancelOrder Sample.root "o1" (Some "void");
     VerifyPayment (Some "order_1") (Some "pay_1")
       (Some "your_test_secret_key/order_1|pay_1") (Some "o1")] in
  ∃ o', orders (run Sample.toy_hmac None ops (Sample.shop Shipped)) !! "o1"
        = Some o'
        ∧ order_core o' = order_core (Sample.order1 Shipped).
Proof.
  intros ops.
  destruct (run_frame Sample.toy_hmac None ops (Sample.shop Shipped))
    as [Horders _].
  apply Horders. reflexivity.
Defined.

Lemma run_stock_nonneg_witness :
  let ops :=
    [Sample.buy_two_shirts;
     CreateOrder Sample.bob [Sample.line "p1" 3; Sample.line "p2" 2] "addr"
       (Some "card");
     CancelOrder Sample.alice "0" (Some "late");
     UpdateStatus "0" Pending;
     CancelOrder Sample.root "0" (Some "again")] in
  stock_nonneg (run Sample.toy_hmac None ops Sample.db)
  ∧ stock_of "p1" (run Sample.toy_hmac None ops Sample.db) = 4.
Proof.
  intros ops. split; [|by vm_compute].
  apply (run_stock_nonneg Sample.toy_hmac None ops Sample.db).
  - subst ops. repeat constructor; simpl; lia.
  - unfold stock_nonneg, Sample.db. simpl.
    apply map_Forall_insert_2; [by vm_compute|].
    apply map_Forall_insert_2; [by vm_compute|].
    apply map_Forall_empty.
  - apply map_Forall_empty.
Defined.

(** Why the quantities must not be negative: a line asking for -3 passes
    the stock check and raises the stock to 8; once another order has
    taken the 8, cancelling the first order leaves the stock at -3. *)
Example negative_quantity_then_cancel :
  let ops :=
    [CreateOrder Sample.alice [Sample.line "p1" (-3)] "addr" (Some "card");
     CreateOrder Sample.bob [Sample.line "p1" 8] "addr" (Some "card");
     CancelOrder Sample.alice "0" (Some "late")] in
  stock_of "p1" (run Sample.toy_hmac None (take 1 ops) Sample.db) = 8
  ∧ stock_of "p1" (run Sample.toy_hmac None ops Sample.db) = -3.
Proof. by vm_compute. Qed.

(** ** GET /orders/my-orders *)

Lemma elem_of_orders_of u db id o :
  (id, o) ∈ orders_of u db ↔ orders db !! id = Some o ∧ Order.user o = u.
Proof.
  unfold orders_of. rewrite list_elem_of_filter, elem_of_map_to_list.
  simpl. tauto.
Qed.

(** What a successful creation has stored. *)
Lemma create_order_inr requester items shippingAddress paymentMethod db id
    order db1 :
  create_order requester items shippingAddress paymentMethod db
  = (inr (id, order), db1) →
  orders db !! id = None
  ∧ orders db1 = <[id := order]> (orders db)
  ∧ Order.user order = Requester._id requester.
Proof.
  intros Hrun. destruct items as [|i rest]; [done|].
  assert (Hne : i :: rest ≠ []) by discriminate.
  pose proof (process_items_orders (i :: rest) (to_number 0) [] db) as Hos.
  destruct (process_items (i :: rest) (to_number 0) [] db) as [[f1|[t acc]] db2] eqn:Hloop;
    simpl in Hos.
  { by rewrite (create_order_loop_failed _ _ _ _ _ _ _ Hloop) in Hrun. }
  rewrite (create_order_after_loop _ _ _ _ _ _ _ _ Hne Hloop) in Hrun.
  destruct paymentMethod as [m|]; [|done].
  cbv zeta in Hrun. rewrite Hos in Hrun. injection Hrun as <- <- <-.
  split_and!; [apply not_elem_of_dom, is_fresh|done|done].
Qed.

(** X13: a created order shows up in its creator's own listing, under the
    id the creation replied, and the listing of every other user contains
    what it contained before. *)
Theorem my_orders_after_creation requester items shippingAddress
    paymentMethod db id order db1 :
  create_order requester items shippingAddress paymentMethod db
  = (inr (id, order), db1) →
  (id, order) ∈ orders_of (Requester._id requester) db1
  ∧ my_orders requester db1
    = (inr (orders_of (Requester._id requester) db1), db1)
  ∧ ∀ other x,
      Requester._id other ≠ Requester._id requester →
      x ∈ orders_of (Requester._id other) db1
      ↔ x ∈ orders_of (Requester._id other) db.
Proof.
  intros Hrun. apply create_order_inr in Hrun as (Hfresh & Hos & Huser).
  split_and!; [|done|].
  - apply elem_of_orders_of. by rewrite Hos, lookup_insert_eq.
  - intros other [id2 o2] Hother. rewrite !elem_of_orders_of, Hos.
    destruct (decide (id = id2)) as [->|Hne].
    + rewrite lookup_insert_eq, Hfresh. split; [|by intros [? _]].
      intros [[= <-] Hu]. congruence.
    + by rewrite lookup_insert_ne.
Qed.

Lemma my_orders_after_creation_witness :
  let db1 := (create_order Sample.bob [Sample.line "p2" 1] "addr"
                (Some "card") (Sample.shop Pending)).2 in
  ("o1", Sample.order1 Pending) ∈ orders_of "u1" db1
  ∧ ∃ order, ("0", order) ∈ orders_of "u2" db1.
Proof.
  intros db1.
  destruct (my_orders_after_creation Sample.bob [Sample.line "p2" 1] "addr"
              (Some "card") (Sample.shop Pending) "0"
              (Order.mk "u2" [OrderItem.mk "p2" 1 (to_number 40) "M" "red"]
                 (to_number 40) "addr" (PaymentInfo.mk "card" None None)
                 Pending None)
              db1 eq_refl) as (Hin & _ & Hothers).
  split; [|by eauto].
  apply (Hothers Sample.alice); [discriminate|].
  apply elem_of_orders_of. by split.
Defined.

(** X14: for a requester who is not an admin, the orders that can be
    viewed by id are exactly the orders of the requester's own listing. *)
Theorem get_order_iff_my_orders requester id order db :
  Requester.role requester ≠ "admin" →
  get_order requester id db = (inr order, db)
  ↔ (id, order) ∈ orders_of (Requester._id requester) db.
Proof.
  intros Hrole. rewrite elem_of_orders_of.
  unfold get_order, bind, findOrder.
  destruct (orders db !! id) as [o|]; [|by split; [|intros [? _]]].
  destruct (not_authorized requester (Order.user o)) eqn:Hauth.
  - apply not_authorized_true in Hauth as [_ Hne].
    split; [done|]. intros [[= ->] Hu]. congruence.
  - apply not_authorized_false in Hauth as [?|Hown]; [done|].
    split; [by intros [= ->]|by intros [[= ->] _]].
Qed.

Lemma get_order_iff_my_orders_witness :
  get_order Sample.alice "o1" (Sample.shop Pending)
  = (inr (Sample.order1 Pending), Sample.shop Pending)
  ∧ ("o1", Sample.order1 Pending) ∉ orders_of "u2" (Sample.shop Pending).
Proof.
  split.
  - apply (get_order_iff_my_orders Sample.alice "o1" (Sample.order1 Pending)
             (Sample.shop Pending)); [discriminate|].
    apply elem_of_orders_of. by split.
  - intros Hin.
    apply (get_order_iff_my_orders Sample.bob "o1" (Sample.order1 Pending)
             (Sample.shop Pending)) in Hin; [|discriminate].
    vm_compute in Hin. discriminate.
Defined.

(** ** GET /products and GET /products/:id *)

(** Two queries that say the same of every product list the same. *)
Lemma list_products_ext category1 featured1 category2 featured2 search db :
  (∀ p, query_matches category1 featured1 search p
        = query_matches category2 featured2 search p) →
  list_products category1 featured1 search db
  = list_products category2 featured2 search db.
Proof.
  intros Hq. unfold list_products.
  destruct (if truthy search then regex_compile (default "" search)
            else Some []); [|done].
  simpl.
  assert (Hall : ∀ kps : list (string * Product.t),
    forallb (λ kp, bool_decide
                     (is_Some (query_matches category1 featured1 search kp.2)))
      kps
    = forallb (λ kp, bool_decide
                       (is_Some
                          (query_matches category2 featured2 search kp.2)))
        kps).
  { induction kps as [|kp kps IH]; simpl; [done|]. by rewrite Hq, IH. }
  rewrite Hall. destruct (forallb _ _); [|done]. f_equal.
  apply list_filter_iff. intros [id p]. simpl. by rewrite Hq.
Qed.

(** X15: a value of featured other than the string "true" (such as
    "false") does not filter at all, and neither do an empty category and
    an empty search term: the listing is the one without that filter. *)
Theorem list_products_ignored_filters category featured search db :
  (featured ≠ Some "true" →
   list_products category featured search db
   = list_products category None search db)
  ∧ list_products (Some "") featured search db
    = list_products None featured search db
  ∧ list_products category featured (Some "") db
    = list_products category featured None db.
Proof.
  split_and!; [|done..].
  intros Hf. apply list_products_ext. intros p.
  unfold query_matches. by rewrite (bool_decide_eq_false_2 _ Hf).
Qed.

Lemma list_products_ignored_filters_witness :
  list_products None (Some "false") None Sample.db
  = list_products None None None Sample.db
  ∧ list_products None None None Sample.db
    = Some [("p1", Sample.shirt); ("p2", Sample.scarf)].
Proof.
  split; [|by vm_compute].
  destruct (list_products_ignored_filters None (Some "false") None Sample.db)
    as [Hfeatured _].
  apply Hfeatured. discriminate.
Defined.

(** X16: every product a listing returns can be fetched by its id, and
    the fetch returns that product and writes nothing. *)
Theorem listed_product_can_be_fetched category featured search db l id p :
  list_products category featured search db = Some l →
  (id, p) ∈ l →
  get_product id db = (inr p, db).
Proof.
  unfold list_products. intros Hl Hin.
  destruct (if truthy search then regex_compile (default "" search)
            else Some []); [|done].
  simpl in Hl. destruct (forallb _ _); [|done]. injection Hl as <-.
  apply list_elem_of_filter in Hin as [_ Hin].
  apply elem_of_map_to_list in Hin.
  unfold get_product, bind, findProduct. by rewrite Hin.
Qed.

Lemma listed_product_can_be_fetched_witness :
  get_product "p2" Sample.db = (inr Sample.scarf, Sample.db).
Proof.
  apply (listed_product_can_be_fetched None (Some "true") (Some "silk")
           Sample.db [("p2", Sample.scarf)] "p2" Sample.scarf).
  - by vm_compute.
  - by left.
Defined.
